(** * cnv-data: the Orphadata extractors and the record merger

    A shallow embedding of the core of [scripts/update.py] and
    [scripts/update_datasets.py]: the four per-disorder extractors
    ([parse_definitions], [parse_phenotypes], [parse_prevalence],
    [parse_omim]) and the row construction of [save_combined_tsv] and
    [save_combined_csv].

    The two scripts carry textually identical copies of the four [parse_*]
    functions, so each is embedded once.  The download, spreadsheet and
    symlink plumbing is not modelled.

    Conventions.
    - A Python [str] is a Rocq [string]; a character of type [ascii] stands
      for the code point of the same number (0..255).
    - [None] is [option]'s [None]; a truth test [if x:] on a string is
      [truthy].
    - A [dict] / [defaultdict(list)] is a [gmap string _].
    - The set [orphacodes] is the list of its members in the set's iteration
      order; membership is list membership.
    - [ET.parse(path).getroot()] is the [root] element the extractors take;
      an open file is the list of the strings written to it. *)

From Stdlib Require Import Ascii.
From stdpp Require Import base option list strings gmap fin_maps.

Set Warnings "-register-all".

(** ** Python strings *)

(** [bool(s)] for a string. *)
Definition truthy (s : string) : bool :=
  match s with
  | EmptyString => false
  | String _ _ => true
  end.

(** [x or ""] for [x : str | None]. *)
Definition or_empty (x : option string) : string :=
  match x with
  | Some s => if truthy s then s else ""
  | None => ""
  end.

(** [if x:] for [x : str | None]. *)
Definition truthy_opt (x : option string) : bool :=
  match x with
  | Some s => truthy s
  | None => false
  end.

(** [sep.join(l)]. *)
Fixpoint join (sep : string) (l : list string) : string :=
  match l with
  | [] => ""
  | [x] => x
  | x :: rest => x +:+ sep +:+ join sep rest
  end.

(** [str.isspace] on one character, for the code points below 256:
    TAB, LF, VT, FF, CR, FS, GS, RS, US, SPACE, NEL and NBSP. *)
Definition isspace (c : ascii) : bool :=
  let n := nat_of_ascii c in
  (Nat.leb 9 n && Nat.leb n 13) || (Nat.leb 28 n && Nat.leb n 32)
  || Nat.eqb n 133 || Nat.eqb n 160.

Fixpoint lstrip (s : string) : string :=
  match s with
  | EmptyString => EmptyString
  | String c s' => if isspace c then lstrip s' else s
  end.

Fixpoint rstrip (s : string) : string :=
  match s with
  | EmptyString => EmptyString
  | String c s' =>
      match rstrip s' with
      | EmptyString => if isspace c then EmptyString else String c EmptyString
      | r => String c r
      end
  end.

(** [s.strip()]. *)
Definition strip (s : string) : string := rstrip (lstrip s).

(** ** xml.etree.ElementTree *)

(** An element: its tag, its attribute dictionary, its text ([None] when the
    element has no text node before its first child) and its children in
    document order. *)
Inductive Element : Type :=
  mkElement {
    tag : string;
    attrib : gmap string string;
    text : option string;
    children : list Element
  }.

(** One step of an ElementPath expression, as the scripts use them. *)
Inductive Step : Type :=
  | Child (t : string)                 (* "t"            *)
  | ChildAttr (t k v : string)         (* "t[@k='v']"    *)
  | Descendant (t : string).           (* ".//t"         *)

(** [Element.iter()]: the element and all its descendants, in document
    order. *)
Fixpoint iter (e : Element) : list Element :=
  match e with
  | mkElement _ _ _ cs => e :: flat_map iter cs
  end.

(** [elem.get(k) == v]. *)
Definition has_attr (k v : string) (e : Element) : Prop :=
  attrib e !! k = Some v.

#[local] Instance has_attr_dec k v e : Decision (has_attr k v e).
Proof. unfold has_attr. apply _. Defined.

(** The elements one step selects from a context element, in document
    order. *)
Definition select (s : Step) (e : Element) : list Element :=
  match s with
  | Child t => filter (fun c => tag c = t) (children e)
  | ChildAttr t k v =>
      filter (has_attr k v) (filter (fun c => tag c = t) (children e))
  | Descendant t => filter (fun c => tag c = t) (flat_map iter (children e))
  end.

(** [elem.findall(path)]. *)
Fixpoint findall (path : list Step) (e : Element) : list Element :=
  match path with
  | [] => [e]
  | s :: path' => flat_map (findall path') (select s e)
  end.

(** [elem.find(path)]: the first match, or [None]. *)
Definition find (path : list Step) (e : Element) : option Element :=
  head (findall path e).

(** [elem.findtext(path)]: the text of the first match ([""] when that
    element has no text), or [None] when nothing matches. *)
Definition findtext (path : list Step) (e : Element) : option string :=
  match find path e with
  | Some x => Some (default "" (text x))
  | None => None
  end.

(** ** re: the pattern [(\d+)\[PMID\]] *)

(** [\d] on one character: below code point 256 the decimal digits are
    [0] to [9]. *)
Definition isdigit (c : ascii) : bool :=
  let n := nat_of_ascii c in Nat.leb 48 n && Nat.leb n 57.

(** [s] starts with [lit]. *)
Fixpoint startswith (lit s : string) : bool :=
  match lit, s with
  | EmptyString, _ => true
  | String a lit', String b s' => bool_decide (a = b) && startswith lit' s'
  | String _ _, EmptyString => false
  end.

(** One attempt to match the pattern at the head of [s], as the backtracking
    matcher runs it: [\d+] is greedy, so after each digit the matcher first
    tries to take one more digit and only when the rest of the pattern fails
    there does it try the literal [[PMID]].  The result is group 1 and the
    number of characters the whole match spans. *)
Fixpoint match_pmid (s : string) : option (string * nat) :=
  match s with
  | EmptyString => None
  | String c s' =>
      if isdigit c then
        match match_pmid s' with
        | Some (ds, n) => Some (String c ds, S n)
        | None =>
            if startswith "[PMID]" s' then Some (String c EmptyString, 7)
            else None
        end
      else None
  end.

(** The scan of [pattern.findall]: [skip] characters still belong to the
    match found last; at every other position one attempt is made, and a
    match moves the scan to its end. *)
Fixpoint findall_from (skip : nat) (s : string) : list string :=
  match s with
  | EmptyString => []
  | String _ s' =>
      match skip with
      | S k => findall_from k s'
      | O =>
          match match_pmid s with
          | Some (ds, n) => ds :: findall_from (pred n) s'
          | None => findall_from 0 s'
          end
      end
  end.

(** [pmid_pattern.findall(source_text)]: with one group, the list of what
    the group matched. *)
Definition pmid_findall (source_text : string) : list string :=
  findall_from 0 source_text.

(** ** dict and defaultdict(list) *)

(** [d.get(k, dflt)]: no key is created. *)
Definition dict_get {V : Type} (d : gmap string V) (k : string) (dflt : V) : V :=
  match d !! k with
  | Some v => v
  | None => dflt
  end.

(** [d[k].append(x)] on a [defaultdict(list)]: a missing key is created with
    the empty list first. *)
Definition dd_append (d : gmap string (list string)) (k x : string)
  : gmap string (list string) :=
  <[k := dict_get d k [] ++ [x]]> d.

(** ** The extractors (both scripts) *)

(** The ElementPath expressions of the scripts. *)
Definition p_Disorder : list Step := [Descendant "Disorder"].
Definition p_OrphaCode : list Step := [Child "OrphaCode"].
Definition p_SummaryInformation : list Step :=
  [Child "SummaryInformationList"; Child "SummaryInformation"].
Definition p_TextSection : list Step :=
  [Child "TextSectionList"; Child "TextSection"].
Definition p_TextSectionType_Name : list Step :=
  [Child "TextSectionType"; ChildAttr "Name" "lang" "en"].
Definition p_Contents : list Step := [Child "Contents"].
Definition p_HPODisorderAssociationList : list Step :=
  [Child "HPODisorderAssociationList"].
Definition p_HPODisorderAssociation : list Step :=
  [Child "HPODisorderAssociation"].
Definition p_HPOFrequency_Name : list Step :=
  [Child "HPOFrequency"; ChildAttr "Name" "lang" "en"].
Definition p_HPOTerm : list Step := [Child "HPO"; Child "HPOTerm"].
Definition p_HPOId : list Step := [Child "HPO"; Child "HPOId"].
Definition p_PrevalenceList : list Step := [Child "PrevalenceList"].
Definition p_Prevalence : list Step := [Child "Prevalence"].
Definition p_ValMoy : list Step := [Child "ValMoy"].
Definition p_PrevalenceClass_Name : list Step :=
  [Child "PrevalenceClass"; ChildAttr "Name" "lang" "en"].
Definition p_Source : list Step := [Child "Source"].
Definition p_ExternalReferenceList : list Step :=
  [Child "ExternalReferenceList"].
Definition p_ExternalReference : list Step := [Child "ExternalReference"].
Definition p_Reference : list Step := [Child "Reference"].

(** *** parse_definitions *)

(** [section_type is not None and section_type.text == "Definition"]. *)
Definition is_definition_section (text_section : Element) : bool :=
  match find p_TextSectionType_Name text_section with
  | Some section_type => bool_decide (text section_type = Some "Definition")
  | None => false
  end.

(** The inner loop over the text sections of one summary block; the variable
    [definition] is threaded through, and the [break] ends the loop. *)
Fixpoint scan_text_sections (sections : list Element) (definition : string)
  : string :=
  match sections with
  | [] => definition
  | text_section :: rest =>
      if is_definition_section text_section then
        match findtext p_Contents text_section with
        | Some contents =>
            if truthy contents then strip contents (* break *)
            else scan_text_sections rest definition
        | None => scan_text_sections rest definition
        end
      else scan_text_sections rest definition
  end.

(** The outer loop over the summary blocks of one disorder; [if definition:
    break] is tested after every block, English or not. *)
Fixpoint scan_summary_infos (infos : list Element) (definition : string)
  : string :=
  match infos with
  | [] => definition
  | summary_info :: rest =>
      let lang := dict_get (attrib summary_info) "lang" "" in
      let definition :=
        if bool_decide (lang = "en")
        then scan_text_sections (findall p_TextSection summary_info) definition
        else definition in
      if truthy definition then definition (* break *)
      else scan_summary_infos rest definition
  end.

(** The value stored for one retained disorder. *)
Definition disorder_definition (disorder : Element) : string :=
  scan_summary_infos (findall p_SummaryInformation disorder) "".

(** The body of the loop over the disorders. *)
Definition definitions_step (orphacodes : list string)
    (data : gmap string string) (disorder : Element) : gmap string string :=
  match findtext p_OrphaCode disorder with
  | Some code =>
      if bool_decide (code ∈ orphacodes)
      then <[code := disorder_definition disorder]> data
      else data
  | None => data
  end.

Definition definitions_loop (orphacodes : list string)
    (disorders : list Element) (data : gmap string string)
  : gmap string string :=
  fold_left (definitions_step orphacodes) disorders data.

Definition parse_definitions (root : Element) (orphacodes : list string)
  : gmap string string :=
  definitions_loop orphacodes (findall p_Disorder root) ∅.

(** *** parse_phenotypes *)

(** The body of the loop over the associations of one disorder. *)
Definition phenotypes_assoc (target_freq code : string)
    (phenos : gmap string (list string)) (assoc : Element)
  : gmap string (list string) :=
  let freq_name := findtext p_HPOFrequency_Name assoc in
  if bool_decide (freq_name = Some target_freq) then
    let hpo_term := or_empty (findtext p_HPOTerm assoc) in
    let hpo_id := or_empty (findtext p_HPOId assoc) in
    if truthy hpo_term && truthy hpo_id
    then dd_append phenos code (hpo_term +:+ " (" +:+ hpo_id +:+ ")")
    else phenos
  else phenos.

(** The body of the loop over the disorders; each [continue] leaves the
    dictionary as it is. *)
Definition phenotypes_step (orphacodes : list string) (target_freq : string)
    (phenos : gmap string (list string)) (disorder : Element)
  : gmap string (list string) :=
  match findtext p_OrphaCode disorder with
  | Some code =>
      if bool_decide (code ∈ orphacodes) then
        match find p_HPODisorderAssociationList disorder with
        | None => phenos
        | Some assoc_list =>
            fold_left (phenotypes_assoc target_freq code)
                      (findall p_HPODisorderAssociation assoc_list) phenos
        end
      else phenos
  | None => phenos
  end.

Definition phenotypes_loop (orphacodes : list string) (target_freq : string)
    (disorders : list Element) (phenos : gmap string (list string))
  : gmap string (list string) :=
  fold_left (phenotypes_step orphacodes target_freq) disorders phenos.

Definition parse_phenotypes (root : Element) (orphacodes : list string)
    (target_freq : string) : gmap string (list string) :=
  phenotypes_loop orphacodes target_freq (findall p_Disorder root) ∅.

(** The default of the keyword argument [target_freq]. *)
Definition default_target_freq : string := "Very frequent (99-80%)".

(** *** parse_prevalence *)

(** The descriptor built for one [Prevalence] element. *)
Definition prevalence_descriptor (prev : Element) : string :=
  let val := or_empty (findtext p_ValMoy prev) in
  let class_ := or_empty (findtext p_PrevalenceClass_Name prev) in
  let source_text := or_empty (findtext p_Source prev) in
  let pmids := pmid_findall source_text in
  let prevalence_str := val in
  let prevalence_str :=
    if truthy class_ then prevalence_str +:+ " (" +:+ class_ +:+ ")"
    else prevalence_str in
  let prevalence_str :=
    match pmids with
    | [] => prevalence_str
    | _ :: _ => prevalence_str +:+ " (PMID:" +:+ join "," pmids +:+ ")"
    end in
  prevalence_str.

Definition prevalence_prev (code : string)
    (prev_data : gmap string (list string)) (prev : Element)
  : gmap string (list string) :=
  dd_append prev_data code (prevalence_descriptor prev).

Definition prevalence_step (orphacodes : list string)
    (prev_data : gmap string (list string)) (disorder : Element)
  : gmap string (list string) :=
  match findtext p_OrphaCode disorder with
  | Some code =>
      if bool_decide (code ∈ orphacodes) then
        match find p_PrevalenceList disorder with
        | None => prev_data
        | Some prev_list =>
            fold_left (prevalence_prev code)
                      (findall p_Prevalence prev_list) prev_data
        end
      else prev_data
  | None => prev_data
  end.

Definition prevalence_loop (orphacodes : list string)
    (disorders : list Element) (prev_data : gmap string (list string))
  : gmap string (list string) :=
  fold_left (prevalence_step orphacodes) disorders prev_data.

Definition parse_prevalence (root : Element) (orphacodes : list string)
  : gmap string (list string) :=
  prevalence_loop orphacodes (findall p_Disorder root) ∅.

(** *** parse_omim *)

Definition omim_ext_ref (code : string)
    (omim_map : gmap string (list string)) (ext_ref : Element)
  : gmap string (list string) :=
  let source := findtext p_Source ext_ref in
  let ref := findtext p_Reference ext_ref in
  match ref with
  | Some r =>
      if bool_decide (source = Some "OMIM") && truthy r
      then dd_append omim_map code r
      else omim_map
  | None => omim_map
  end.

Definition omim_step (orphacodes : list string)
    (omim_map : gmap string (list string)) (disorder : Element)
  : gmap string (list string) :=
  match findtext p_OrphaCode disorder with
  | Some code =>
      if bool_decide (code ∈ orphacodes) then
        match find p_ExternalReferenceList disorder with
        | None => omim_map
        | Some ext_refs =>
            fold_left (omim_ext_ref code)
                      (findall p_ExternalReference ext_refs) omim_map
        end
      else omim_map
  | None => omim_map
  end.

Definition omim_loop (orphacodes : list string)
    (disorders : list Element) (omim_map : gmap string (list string))
  : gmap string (list string) :=
  fold_left (omim_step orphacodes) disorders omim_map.

Definition parse_omim (root : Element) (orphacodes : list string)
  : gmap string (list string) :=
  omim_loop orphacodes (findall p_Disorder root) ∅.

(** ** The record merger *)

(** *** update.py: save_combined_tsv *)

(** The list [line] built for one code. *)
Definition tsv_line (defs : gmap string string)
    (phenos prevs omims : gmap string (list string)) (code : string)
  : list string :=
  [ code;
    dict_get defs code "";
    join "; " (dict_get phenos code []);
    join "; " (dict_get prevs code []);
    join "; " (dict_get omims code []) ].

(** The escapes ["\t"] and ["\n"]. *)
Definition tab : string := String (ascii_of_nat 9) EmptyString.
Definition newline : string := String (ascii_of_nat 10) EmptyString.

Definition tsv_header : string :=
  "OrphaCode" +:+ tab +:+ "Definition" +:+ tab +:+ "Phenotypes" +:+ tab +:+
  "Prevalence" +:+ tab +:+ "OMIM" +:+ newline.

(** The sequence of [line] values of the loop, in iteration order. *)
Definition tsv_rows (defs : gmap string string)
    (phenos prevs omims : gmap string (list string))
    (orphacodes : list string) : list (list string) :=
  fold_left (fun rows code => rows ++ [tsv_line defs phenos prevs omims code])
            orphacodes [].

(** The file object is the list of the strings written to it, in order; the
    function returns what the file holds when it is closed. *)
Definition save_combined_tsv (defs : gmap string string)
    (phenos prevs omims : gmap string (list string))
    (orphacodes : list string) : list string :=
  fold_left
    (fun f code =>
       f ++ [join tab (tsv_line defs phenos prevs omims code) +:+ newline])
    orphacodes [tsv_header].

(** *** update_datasets.py: save_combined_csv *)

(** The dictionary appended to [rows] for one code: five fixed keys. *)
Record Row : Type :=
  mkRow {
    OrphaCode : string;
    Definition_ : string;
    Phenotypes : string;
    Prevalence : string;
    OMIM : string
  }.

Definition csv_row (defs : gmap string string)
    (phenos prevs omims : gmap string (list string)) (code : string) : Row :=
  {| OrphaCode := code;
     Definition_ := dict_get defs code "";
     Phenotypes := join "; " (dict_get phenos code []);
     Prevalence := join "; " (dict_get prevs code []);
     OMIM := join "; " (dict_get omims code []) |}.

(** The list [rows] handed to [pd.DataFrame]; [save_combined_excel] of
    update.py builds its rows with the same loop. *)
Definition save_combined_csv (defs : gmap string string)
    (phenos prevs omims : gmap string (list string))
    (orphacodes : list string) : list Row :=
  fold_left (fun rows code => rows ++ [csv_row defs phenos prevs omims code])
            orphacodes [].

(** The values of a row, in the order of its keys. *)
Definition row_values (r : Row) : list string :=
  [OrphaCode r; Definition_ r; Phenotypes r; Prevalence r; OMIM r].

(** * Specification-level readings

    Definitions that follow the words of the specification; the theorems
    below relate them to the loops above. *)

(** The fields of the merged record of one code, in the spec's words: the
    stored definition or the empty string, and the ["; "]-join of the stored
    sequence or the empty string. *)
Definition merged_fields (defs : gmap string string)
    (phenos prevs omims : gmap string (list string)) (code : string)
  : list string :=
  [ code;
    match defs !! code with Some d => d | None => "" end;
    match phenos !! code with Some l => join "; " l | None => "" end;
    match prevs !! code with Some l => join "; " l | None => "" end;
    match omims !! code with Some l => join "; " l | None => "" end ].

(** The disorder carries the code: [disorder.findtext("OrphaCode") == code]. *)
Definition has_code (code : string) (disorder : Element) : Prop :=
  findtext p_OrphaCode disorder = Some code.

#[local] Instance has_code_dec code disorder : Decision (has_code code disorder).
Proof. unfold has_code. apply _. Defined.

(** The [Disorder] elements of a document that carry a code, in document
    order. *)
Definition occurrences (root : Element) (code : string) : list Element :=
  filter (has_code code) (findall p_Disorder root).

(** An association is kept: its English frequency name equals the target
    frequency, and its HPO term and HPO id are both non-empty. *)
Definition keeps (target_freq : string) (assoc : Element) : bool :=
  bool_decide (findtext p_HPOFrequency_Name assoc = Some target_freq)
  && truthy_opt (findtext p_HPOTerm assoc)
  && truthy_opt (findtext p_HPOId assoc).

(** The descriptor ["term (HPO-id)"]. *)
Definition phenotype_descriptor (assoc : Element) : string :=
  or_empty (findtext p_HPOTerm assoc) +:+ " (" +:+
  or_empty (findtext p_HPOId assoc) +:+ ")".

(** What one disorder contributes to the phenotype feed. *)
Definition phenotype_entries (target_freq : string) (disorder : Element)
  : list string :=
  match find p_HPODisorderAssociationList disorder with
  | None => []
  | Some assoc_list =>
      map phenotype_descriptor
          (filter (fun a => keeps target_freq a = true)
                  (findall p_HPODisorderAssociation assoc_list))
  end.

(** What one disorder contributes to the prevalence feed. *)
Definition prevalence_entries (disorder : Element) : list string :=
  match find p_PrevalenceList disorder with
  | None => []
  | Some prev_list =>
      map prevalence_descriptor (findall p_Prevalence prev_list)
  end.

(** An external reference is an OMIM one: its source is the literal ["OMIM"]
    and its reference is non-empty. *)
Definition is_omim (ext_ref : Element) : bool :=
  bool_decide (findtext p_Source ext_ref = Some "OMIM")
  && truthy_opt (findtext p_Reference ext_ref).

Definition reference_id (ext_ref : Element) : string :=
  or_empty (findtext p_Reference ext_ref).

(** What one disorder contributes to the OMIM feed. *)
Definition omim_entries (disorder : Element) : list string :=
  match find p_ExternalReferenceList disorder with
  | None => []
  | Some ext_refs =>
      map reference_id
          (filter (fun r => is_omim r = true)
                  (findall p_ExternalReference ext_refs))
  end.

(** The summary blocks of a disorder that have [lang="en"], in document
    order. *)
Definition english_blocks (disorder : Element) : list Element :=
  filter (has_attr "lang" "en") (findall p_SummaryInformation disorder).

(** A text section a definition can be taken from: its English type name is
    "Definition" and its Contents is non-empty. *)
Definition usable_section (text_section : Element) : Prop :=
  is_definition_section text_section = true
  ∧ truthy_opt (findtext p_Contents text_section) = true.

#[local] Instance usable_section_dec ts : Decision (usable_section ts).
Proof. unfold usable_section. apply _. Defined.

(** What one summary block offers: the stripped Contents of its first usable
    section, or the empty string. *)
Definition block_definition (summary_info : Element) : string :=
  match filter usable_section (findall p_TextSection summary_info) with
  | ts :: _ => strip (or_empty (findtext p_Contents ts))
  | [] => ""
  end.

(** The first non-empty string of a list, or the empty string. *)
Definition first_nonempty (l : list string) : string :=
  default "" (head (filter (fun s => s ≠ "") l)).

(** The reading of C2: only the first English block is looked at, and in it
    the first section whose English type name is "Definition". *)
Definition definition_first_english_block (disorder : Element) : string :=
  match english_blocks disorder with
  | summary_info :: _ =>
      match filter (fun ts => is_definition_section ts = true)
                   (findall p_TextSection summary_info) with
      | ts :: _ => strip (or_empty (findtext p_Contents ts))
      | [] => ""
      end
  | [] => ""
  end.

(** Every character of a string passes a test. *)
Fixpoint string_forall (p : ascii → bool) (s : string) : bool :=
  match s with
  | EmptyString => true
  | String c s' => p c && string_forall p s'
  end.

(** One or more digits. *)
Definition is_digits (s : string) : bool :=
  truthy s && string_forall isdigit s.

(** No digit at all. *)
Definition no_digit (s : string) : bool :=
  string_forall (fun c => negb (isdigit c)) s.

(** A source text with citations: each id is preceded by some text without
    digits and immediately followed by the literal [[PMID]]; [tl] is the
    text after the last citation. *)
Fixpoint citations (cites : list (string * string)) (tl : string) : string :=
  match cites with
  | [] => tl
  | (sep, id) :: rest => sep +:+ id +:+ "[PMID]" +:+ citations rest tl
  end.

(** The runs of one or more digits that are immediately followed by the
    literal [[PMID]], in order of occurrence, found in one pass: [run] is
    the run of digits read just before [s]. *)
Fixpoint pmid_runs_from (run : string) (s : string) : list string :=
  match s with
  | EmptyString => []
  | String c s' =>
      if isdigit c then pmid_runs_from (run +:+ String c EmptyString) s'
      else
        (if truthy run && startswith "[PMID]" s then [run] else [])
        ++ pmid_runs_from EmptyString s'
  end.

Definition pmid_runs (source_text : string) : list string :=
  pmid_runs_from EmptyString source_text.

(** The suffix ["(PMID:<comma-joined ids>)"], with the space that separates
    it from what precedes; nothing when there is no id. *)
Definition pmid_suffix (ids : list string) : string :=
  match ids with
  | [] => ""
  | _ :: _ => " (PMID:" +:+ join "," ids +:+ ")"
  end.

Definition starts_with_digit (s : string) : bool :=
  match s with
  | EmptyString => false
  | String c _ => isdigit c
  end.

(** The descriptor before the PMID suffix: the mean value, followed by the
    parenthesized class name when there is one. *)
Definition descriptor_base (prev : Element) : string :=
  let val := or_empty (findtext p_ValMoy prev) in
  let class_ := or_empty (findtext p_PrevalenceClass_Name prev) in
  if truthy class_ then val +:+ " (" +:+ class_ +:+ ")" else val.

(** * Example documents *)

Definition node (t : string) (cs : list Element) : Element :=
  mkElement t ∅ None cs.

Definition leaf (t txt : string) : Element :=
  mkElement t ∅ (Some txt) [].

Definition name_en (txt : string) : Element :=
  mkElement "Name" {["lang" := "en"]} (Some txt) [].

Definition summary_info (lang : string) (sections : list Element) : Element :=
  mkElement "SummaryInformation" {["lang" := lang]} None
            [node "TextSectionList" sections].

Definition text_section (type contents : string) : Element :=
  node "TextSection"
       [node "TextSectionType" [name_en type]; leaf "Contents" contents].

Definition hpo_assoc (term : string) (id : Element) (freq : string) : Element :=
  node "HPODisorderAssociation"
       [node "HPO" [id; leaf "HPOTerm" term];
        node "HPOFrequency" [name_en freq]].

Definition ext_ref (source reference : string) : Element :=
  node "ExternalReference" [leaf "Source" source; leaf "Reference" reference].

Definition document (disorders : list Element) : Element :=
  node "JDBOR" [node "DisorderList" disorders].

Definition ex_codes : list string := ["166024"].

(** Two English summary blocks; only the second has a "Definition" section. *)
Definition ex_two_blocks : Element :=
  node "Disorder"
    [leaf "OrphaCode" "166024";
     node "SummaryInformationList"
       [summary_info "en" [text_section "Clinical description" "Onset in infancy."];
        summary_info "en" [text_section "Definition" "  A rare disease.  "]]].

(** The same two blocks in the other order. *)
Definition ex_two_blocks_swapped : Element :=
  node "Disorder"
    [leaf "OrphaCode" "166024";
     node "SummaryInformationList"
       [summary_info "en" [text_section "Definition" "  A rare disease.  "];
        summary_info "en" [text_section "Clinical description" "Onset in infancy."]]].

Definition ex_assoc_no_id : Element :=
  hpo_assoc "Ataxia" (node "HPOId" []) "Very frequent (99-80%)".

(** One kept association, one with an empty HPO id, one of another
    frequency class. *)
Definition ex_pheno_disorder : Element :=
  node "Disorder"
    [leaf "OrphaCode" "166024";
     node "HPODisorderAssociationList"
       [hpo_assoc "Seizure" (leaf "HPOId" "HP:0001250") "Very frequent (99-80%)";
        ex_assoc_no_id;
        hpo_assoc "Scoliosis" (leaf "HPOId" "HP:0002650") "Frequent (79-30%)"]].

(** External references from OMIM and ICD-10, and an OMIM one without an
    id. *)
Definition ex_omim_disorder : Element :=
  node "Disorder"
    [leaf "OrphaCode" "166024";
     node "ExternalReferenceList"
       [ext_ref "OMIM" "607596"; ext_ref "ICD-10" "Q87.8";
        ext_ref "OMIM" ""; ext_ref "OMIM" "300005"]].

(** A [Prevalence] element with the source text of the specification. *)
Definition ex_prev_pmid : Element :=
  node "Prevalence"
    [leaf "Source" "12345678[PMID], 87654321[PMID]";
     node "PrevalenceClass" [name_en "1-9 / 100 000"];
     leaf "ValMoy" "2.5"].

(** Three [Prevalence] elements, the middle one with nothing in it. *)
Definition ex_prev_disorder : Element :=
  node "Disorder"
    [leaf "OrphaCode" "166024";
     node "PrevalenceList"
       [node "Prevalence" [leaf "ValMoy" "1.0"];
        node "Prevalence" [node "ValMoy" []; leaf "Source" ""];
        node "Prevalence" [leaf "ValMoy" "2.0"]]].

(** A retained disorder with no sub-structure at all. *)
Definition ex_bare_disorder : Element :=
  node "Disorder" [leaf "OrphaCode" "166024"].

(** The first occurrence of a code: a definition and one entry per feed. *)
Definition ex_first_occurrence : Element :=
  node "Disorder"
    [leaf "OrphaCode" "166024";
     node "SummaryInformationList"
       [summary_info "en" [text_section "Definition" "A rare disease."]];
     node "HPODisorderAssociationList"
       [hpo_assoc "Seizure" (leaf "HPOId" "HP:0001250") "Very frequent (99-80%)"];
     node "PrevalenceList" [node "Prevalence" [leaf "ValMoy" "1.0"]];
     node "ExternalReferenceList" [ext_ref "OMIM" "607596"]].

(** The second occurrence of the same code: no definition. *)
Definition ex_second_occurrence : Element :=
  node "Disorder"
    [leaf "OrphaCode" "166024";
     node "HPODisorderAssociationList"
       [hpo_assoc "Ataxia" (leaf "HPOId" "HP:0001251") "Very frequent (99-80%)"];
     node "PrevalenceList" [node "Prevalence" [leaf "ValMoy" "2.0"]];
     node "ExternalReferenceList" [ext_ref "OMIM" "300005"]].

Definition ex_other_disorder : Element :=
  node "Disorder"
    [leaf "OrphaCode" "558";
     node "ExternalReferenceList" [ext_ref "OMIM" "154700"]].

(** * The code-set loaders, the spreadsheet rows and the run *)

(** ** update.py: load_orphacodes *)

(** [set(line.strip() for line in f if line.strip())]; [lines] is what
    iterating the open file [input/orphacodes.txt] yields. *)
Definition load_orphacodes (lines : list string) : gset string :=
  list_to_set
    (map strip (filter (fun line => truthy (strip line) = true) lines)).

(** ** update_datasets.py: load_orphacodes_from_excel *)

(** [s.split(sep)] for a separator of one character: the pieces between the
    separators, empty pieces included, so there is always one piece more
    than there are separators. *)
Fixpoint split (sep : ascii) (s : string) : list string :=
  match s with
  | EmptyString => [EmptyString]
  | String c s' =>
      if bool_decide (c = sep) then EmptyString :: split sep s'
      else
        match split sep s' with
        | p :: ps => String c p :: ps
        | [] => [String c EmptyString]
        end
  end.

Definition comma : ascii := ascii_of_nat 44.

(** What the greedy [\d+] takes at the head of a string. *)
Fixpoint take_digits (s : string) : string :=
  match s with
  | EmptyString => EmptyString
  | String c s' => if isdigit c then String c (take_digits s') else EmptyString
  end.

(** [pattern.match(part)] for the pattern [^(\d+)]: [None], or group 1. *)
Definition match_leading_digits (part : string) : option string :=
  let group1 := take_digits part in
  if truthy group1 then Some group1 else None.

(** The body of the loop over the parts of one cell. *)
Definition excel_part (orphacodes : gset string) (part : string)
  : gset string :=
  match match_leading_digits part with
  | Some group1 => {[group1]} ∪ orphacodes   (* orphacodes.add(...) *)
  | None => orphacodes
  end.

(** The body of the loop over the cells; [entry] is [str(entry)]. *)
Definition excel_entry (orphacodes : gset string) (entry : string)
  : gset string :=
  let parts := map strip (split comma entry) in
  fold_left excel_part parts orphacodes.

(** [entries] is [str(entry)] for the cells of [df['Orphacodes'].dropna()],
    in row order. *)
Definition load_orphacodes_from_excel (entries : list string) : gset string :=
  fold_left excel_entry entries ∅.

(** ** update.py: save_combined_excel *)

(** The dictionary appended to [rows] for one code. *)
Definition excel_row (defs : gmap string string)
    (phenos prevs omims : gmap string (list string)) (code : string) : Row :=
  {| OrphaCode := code;
     Definition_ := dict_get defs code "";
     Phenotypes := join "; " (dict_get phenos code []);
     Prevalence := join "; " (dict_get prevs code []);
     OMIM := join "; " (dict_get omims code []) |}.

(** The list [rows] handed to [pd.DataFrame]. *)
Definition save_combined_excel (defs : gmap string string)
    (phenos prevs omims : gmap string (list string))
    (orphacodes : list string) : list Row :=
  fold_left (fun rows code => rows ++ [excel_row defs phenos prevs omims code])
            orphacodes [].

(** ** update_datasets.py: main, from the parsed documents to the rows *)

(** The part of [main] between the downloads and the write: definitions and
    OMIM references are read from the same document, the target frequency is
    the default one, and the rows are those of [save_combined_csv]. *)
Definition main_rows (def_root pheno_root prev_root : Element)
    (orphacodes : list string) : list Row :=
  let defs := parse_definitions def_root orphacodes in
  let omims := parse_omim def_root orphacodes in
  let phenos := parse_phenotypes pheno_root orphacodes default_target_freq in
  let prevs := parse_prevalence prev_root orphacodes in
  save_combined_csv defs phenos prevs omims orphacodes.

(** ** Readings used by the properties of these functions *)

Definition starts_with_space (s : string) : bool :=
  match s with
  | EmptyString => false
  | String c _ => isspace c
  end.

(** A string without the character [c]. *)
Definition free_of (c : ascii) (s : string) : bool :=
  string_forall (fun x => negb (bool_decide (x = c))) s.

(** [Some l] for a non-empty list, [None] for the empty one: what a
    [defaultdict(list)] holds under a key after [l] has been appended to it
    item by item. *)
Definition nonempty_list (l : list string) : option (list string) :=
  match l with
  | [] => None
  | _ :: _ => Some l
  end.

(** One item of a spreadsheet cell: blanks, the digits of a code, and a
    label. *)
Record CellItem : Type :=
  mkCellItem { item_blanks : string; item_code : string; item_label : string }.

Definition render_item (i : CellItem) : string :=
  item_blanks i +:+ item_code i +:+ item_label i.

(** The item is well formed: only white space before the code, a code of one
    or more digits, and a label that has no comma and does not start with a
    digit. *)
Definition item_ok (i : CellItem) : bool :=
  string_forall isspace (item_blanks i)
  && is_digits (item_code i)
  && free_of comma (item_label i)
  && negb (starts_with_digit (item_label i)).

(** A cell: its items, comma-separated. *)
Definition render_cell (items : list CellItem) : string :=
  join (String comma EmptyString) (map render_item items).

(** The row the run produces for one code, read off the documents. *)
Definition expected_row (def_root pheno_root prev_root : Element)
    (code : string) : Row :=
  {| OrphaCode := code;
     Definition_ :=
       match last (occurrences def_root code) with
       | Some d => disorder_definition d
       | None => ""
       end;
     Phenotypes :=
       join "; " (flat_map (phenotype_entries default_target_freq)
                           (occurrences pheno_root code));
     Prevalence :=
       join "; " (flat_map prevalence_entries (occurrences prev_root code));
     OMIM := join "; " (flat_map omim_entries (occurrences def_root code)) |}.

(** ** Further examples and readings *)

(** A retained disorder whose only prevalence entry cites two PMIDs. *)
Definition ex_pmid_disorder : Element :=
  node "Disorder"
    [leaf "OrphaCode" "166024"; node "PrevalenceList" [ex_prev_pmid]].

(** What a file holds once the strings written to it are put end to end. *)
Definition file_contents (writes : list string) : string :=
  fold_right String.append EmptyString writes.

Definition tab_char : ascii := ascii_of_nat 9.
Definition newline_char : ascii := ascii_of_nat 10.

(** Reading a TSV file back: the text is cut at the line feeds, what follows
    the last line feed is dropped, and each line is cut at the tabs. *)
Definition read_tsv (content : string) : list (list string) :=
  map (split tab_char) (removelast (split newline_char content)).

(** The descriptor of a prevalence entry in the spec's words: the mean value
    and the class name, then the PMID suffix of the Source text. *)
Definition entry_descriptor (prev : Element) : string :=
  descriptor_base prev
  +:+ pmid_suffix (pmid_runs (or_empty (findtext p_Source prev))).

(** * Properties *)

(** ** Loops that append to a list *)

Section append_loop.
Context {A B : Type} (f : A → B).

Lemma fold_left_snoc (l : list A) (acc : list B) :
  fold_left (fun rows x => rows ++ [f x]) l acc = acc ++ map f l.
Proof.
  revert acc. induction l as [|x l IH]; intros acc; simpl.
  - by rewrite app_nil_r.
  - rewrite IH. by rewrite <- app_assoc.
Qed.
End append_loop.

Lemma tsv_rows_map defs phenos prevs omims (orphacodes : list string) :
  tsv_rows defs phenos prevs omims orphacodes
  = map (tsv_line defs phenos prevs omims) orphacodes.
Proof. unfold tsv_rows. by rewrite fold_left_snoc. Qed.

Lemma save_combined_csv_map defs phenos prevs omims (orphacodes : list string) :
  save_combined_csv defs phenos prevs omims orphacodes
  = map (csv_row defs phenos prevs omims) orphacodes.
Proof. unfold save_combined_csv. by rewrite fold_left_snoc. Qed.

Lemma save_combined_tsv_written defs phenos prevs omims (orphacodes : list string) :
  save_combined_tsv defs phenos prevs omims orphacodes
  = tsv_header ::
    map (fun line => join tab line +:+ newline)
        (tsv_rows defs phenos prevs omims orphacodes).
Proof.
  unfold save_combined_tsv.
  rewrite (fold_left_snoc
    (fun code => join tab (tsv_line defs phenos prevs omims code) +:+ newline)).
  rewrite tsv_rows_map, map_map. reflexivity.
Qed.

Lemma tsv_line_merged defs phenos prevs omims code :
  tsv_line defs phenos prevs omims code
  = merged_fields defs phenos prevs omims code.
Proof.
  unfold tsv_line, merged_fields, dict_get.
  destruct (defs !! code), (phenos !! code), (prevs !! code),
    (omims !! code); reflexivity.
Qed.

Lemma csv_row_values defs phenos prevs omims code :
  row_values (csv_row defs phenos prevs omims code)
  = tsv_line defs phenos prevs omims code.
Proof. reflexivity. Qed.

(** C1. For every code set (in its iteration order) and every four maps,
    both mergers produce one record per code, in the order of the code set:
    the i-th record carries the i-th code, the stored definition or the empty
    string when the code has none, and for phenotypes, prevalence and OMIM
    the ["; "]-join of the stored sequence, empty when the code has none.
    Hence there are exactly as many records as codes, and the TSV file
    receives the header followed by one line per code. *)
Theorem merger_one_record_per_code
    (defs : gmap string string) (phenos prevs omims : gmap string (list string))
    (C : list string) :
  Forall2 (fun code line => line = merged_fields defs phenos prevs omims code)
          C (tsv_rows defs phenos prevs omims C)
  ∧ Forall2 (fun code r => row_values r
                           = merged_fields defs phenos prevs omims code)
            C (save_combined_csv defs phenos prevs omims C)
  ∧ length (tsv_rows defs phenos prevs omims C) = length C
  ∧ length (save_combined_csv defs phenos prevs omims C) = length C
  ∧ map OrphaCode (save_combined_csv defs phenos prevs omims C) = C
  ∧ save_combined_tsv defs phenos prevs omims C
    = tsv_header ::
      map (fun code =>
             join tab (merged_fields defs phenos prevs omims code) +:+ newline)
          C.
Proof.
  rewrite save_combined_tsv_written.
  rewrite tsv_rows_map, save_combined_csv_map.
  repeat split.
  - induction C as [|c C IH]; constructor; auto using tsv_line_merged.
  - induction C as [|c C IH]; constructor; auto.
    rewrite csv_row_values. apply tsv_line_merged.
  - by rewrite length_map.
  - by rewrite length_map.
  - induction C as [|c C IH]; simpl; [done|]. by rewrite IH.
  - f_equal. rewrite map_map. apply map_ext. intros code.
    by rewrite tsv_line_merged.
Qed.

(** The end-to-end example of the specification. *)
Example merged_record_166024 :
  save_combined_csv ∅ {["166024" := ["Seizure (HP:0001250)"]]} ∅
                    {["166024" := ["607596"]]} ["166024"]
  = [ {| OrphaCode := "166024"; Definition_ := "";
         Phenotypes := "Seizure (HP:0001250)"; Prevalence := "";
         OMIM := "607596" |} ].
Proof. vm_compute. reflexivity. Qed.

(** The two loops run in lock step: whatever the rows collected so far, if
    their values agree then they agree after the remaining codes. *)
Lemma mergers_simulation defs phenos prevs omims (C : list string) :
  ∀ (rows : list Row) (lines : list (list string)),
    map row_values rows = lines →
    map row_values
        (fold_left (fun rows code =>
                      rows ++ [csv_row defs phenos prevs omims code]) C rows)
    = fold_left (fun rows code =>
                   rows ++ [tsv_line defs phenos prevs omims code]) C lines.
Proof.
  induction C as [|c C IH]; intros rows lines Hrows; simpl; [done|].
  apply IH. rewrite map_app, Hrows. simpl. by rewrite csv_row_values.
Qed.

(** C8. For every code set and every four maps, the rows built by
    [save_combined_csv] of update_datasets.py carry, code by code and in the
    same order, the same five values (code, definition, joined phenotypes,
    joined prevalence, joined OMIM) as the [line] lists built by
    [save_combined_tsv] of update.py. *)
Theorem mergers_agree
    (defs : gmap string string) (phenos prevs omims : gmap string (list string))
    (C : list string) :
  map row_values (save_combined_csv defs phenos prevs omims C)
  = tsv_rows defs phenos prevs omims C.
Proof.
  unfold save_combined_csv, tsv_rows. by apply mergers_simulation.
Qed.

(** ** Dictionaries of lists *)

Lemma dict_get_dd_append (d : gmap string (list string)) (k x k' : string) :
  dict_get (dd_append d k x) k' []
  = dict_get d k' [] ++ (if decide (k = k') then [x] else []).
Proof.
  unfold dd_append, dict_get at 1.
  destruct (decide (k = k')) as [->|Hne].
  - by rewrite lookup_insert_eq.
  - rewrite lookup_insert_ne by done. fold (dict_get d k' []).
    by rewrite app_nil_r.
Qed.

(** A loop that appends [f a] under one key for the elements that pass a
    test. *)
Section conditional_append.
Context {A : Type} (p : A → bool) (f : A → string) (k : string).
Variable body : gmap string (list string) → A → gmap string (list string).
Hypothesis body_spec :
  ∀ d a, body d a = if p a then dd_append d k (f a) else d.

Lemma conditional_append_get (l : list A) (d : gmap string (list string))
    (k' : string) :
  dict_get (fold_left body l d) k' []
  = dict_get d k' [] ++
    (if decide (k = k') then map f (filter (fun a => p a = true) l) else []).
Proof.
  revert d. induction l as [|a l IH]; intros d; simpl.
  - destruct (decide (k = k')); by rewrite app_nil_r.
  - rewrite IH, body_spec. destruct (p a) eqn:Hp.
    + rewrite dict_get_dd_append, filter_cons_True by done.
      rewrite <- app_assoc. destruct (decide (k = k')); done.
    + rewrite filter_cons_False; [done|]. by rewrite Hp.
Qed.
End conditional_append.

(** A loop over the disorders whose body extends the list of the disorder's
    code by the disorder's entries when the code is retained. *)
Section disorder_loop.
Variable orphacodes : list string.
Variable entries : Element → list string.
Variable step : gmap string (list string) → Element → gmap string (list string).
Hypothesis step_get :
  ∀ m d k, dict_get (step m d) k []
           = dict_get m k [] ++
             (if decide (has_code k d ∧ k ∈ orphacodes) then entries d else []).

Lemma disorder_loop_get (ds : list Element) (m : gmap string (list string))
    (k : string) :
  k ∈ orphacodes →
  dict_get (fold_left step ds m) k []
  = dict_get m k [] ++ flat_map entries (filter (has_code k) ds).
Proof.
  intros Hk. revert m. induction ds as [|d ds IH]; intros m; simpl.
  - by rewrite app_nil_r.
  - rewrite IH, step_get. rewrite <- app_assoc. f_equal.
    destruct (decide (has_code k d)) as [Hc|Hc].
    + rewrite filter_cons_True by done.
      rewrite decide_True by done. reflexivity.
    + rewrite filter_cons_False by done.
      rewrite decide_False by tauto. reflexivity.
Qed.

Lemma disorder_loop_get_other (ds : list Element)
    (m : gmap string (list string)) (k : string) :
  k ∉ orphacodes →
  dict_get (fold_left step ds m) k [] = dict_get m k [].
Proof.
  intros Hk. revert m. induction ds as [|d ds IH]; intros m; simpl; [done|].
  rewrite IH, step_get. rewrite decide_False by tauto. by rewrite app_nil_r.
Qed.
End disorder_loop.

(** ** The three list-valued extractors, disorder by disorder *)

Lemma or_empty_default (x : option string) : or_empty x = default "" x.
Proof. destruct x as [[|c s]|]; reflexivity. Qed.

Lemma truthy_or_empty (x : option string) : truthy (or_empty x) = truthy_opt x.
Proof. destruct x as [[|c s]|]; reflexivity. Qed.

Lemma phenotypes_assoc_spec target_freq code phenos assoc :
  phenotypes_assoc target_freq code phenos assoc
  = if keeps target_freq assoc
    then dd_append phenos code (phenotype_descriptor assoc)
    else phenos.
Proof.
  unfold phenotypes_assoc, keeps, phenotype_descriptor.
  rewrite !truthy_or_empty.
  destruct (bool_decide _); simpl; [|done].
  destruct (truthy_opt _); simpl; [|done].
  destruct (truthy_opt _); done.
Qed.

Lemma prevalence_prev_spec code prev_data prev :
  prevalence_prev code prev_data prev
  = if (fun _ : Element => true) prev
    then dd_append prev_data code (prevalence_descriptor prev)
    else prev_data.
Proof. reflexivity. Qed.

Lemma omim_ext_ref_spec code omim_map ext_ref :
  omim_ext_ref code omim_map ext_ref
  = if is_omim ext_ref
    then dd_append omim_map code (reference_id ext_ref)
    else omim_map.
Proof.
  unfold omim_ext_ref, is_omim, reference_id.
  destruct (findtext p_Reference ext_ref) as [r|]; simpl.
  - destruct (bool_decide _); simpl; [|done].
    destruct r; done.
  - by rewrite andb_false_r.
Qed.

Lemma filter_all_true {A : Type} (l : list A) :
  filter (fun a => (fun _ : A => true) a = true) l = l.
Proof.
  induction l as [|a l IH]; [done|]. rewrite filter_cons_True by done.
  by rewrite IH.
Qed.

Ltac step_cases d k :=
  let c := fresh "c" in
  let Hc := fresh "Hc" in
  destruct (findtext p_OrphaCode d) as [c|] eqn:Hc;
  [ case_bool_decide;
    [ destruct (decide (c = k)) as [->|];
      [ rewrite (decide_True (P := has_code k d ∧ _)) by (by split)
      | rewrite (decide_False (P := has_code k d ∧ _))
          by (unfold has_code; intros [? ?]; congruence) ]
    | rewrite (decide_False (P := has_code k d ∧ _))
        by (unfold has_code; intros [? ?]; congruence) ]
  | rewrite (decide_False (P := has_code k d ∧ _))
      by (unfold has_code; intros [? ?]; congruence) ];
  rewrite ?app_nil_r; try reflexivity.

Lemma phenotypes_step_get orphacodes target_freq m d k :
  dict_get (phenotypes_step orphacodes target_freq m d) k []
  = dict_get m k [] ++
    (if decide (has_code k d ∧ k ∈ orphacodes)
     then phenotype_entries target_freq d else []).
Proof.
  unfold phenotypes_step, phenotype_entries.
  step_cases d k.
  - destruct (find p_HPODisorderAssociationList d); [|by rewrite app_nil_r].
    rewrite (conditional_append_get (keeps target_freq) phenotype_descriptor k)
      by apply phenotypes_assoc_spec.
    by rewrite decide_True.
  - destruct (find p_HPODisorderAssociationList d); [|done].
    rewrite (conditional_append_get (keeps target_freq) phenotype_descriptor c)
      by apply phenotypes_assoc_spec.
    rewrite decide_False by done. by rewrite app_nil_r.
Qed.

Lemma prevalence_step_get orphacodes m d k :
  dict_get (prevalence_step orphacodes m d) k []
  = dict_get m k [] ++
    (if decide (has_code k d ∧ k ∈ orphacodes)
     then prevalence_entries d else []).
Proof.
  unfold prevalence_step, prevalence_entries.
  step_cases d k.
  - destruct (find p_PrevalenceList d); [|by rewrite app_nil_r].
    rewrite (conditional_append_get (fun _ => true) prevalence_descriptor k)
      by apply prevalence_prev_spec.
    rewrite decide_True by done. by rewrite filter_all_true.
  - destruct (find p_PrevalenceList d); [|done].
    rewrite (conditional_append_get (fun _ => true) prevalence_descriptor c)
      by apply prevalence_prev_spec.
    rewrite decide_False by done. by rewrite app_nil_r.
Qed.

Lemma omim_step_get orphacodes m d k :
  dict_get (omim_step orphacodes m d) k []
  = dict_get m k [] ++
    (if decide (has_code k d ∧ k ∈ orphacodes) then omim_entries d else []).
Proof.
  unfold omim_step, omim_entries.
  step_cases d k.
  - destruct (find p_ExternalReferenceList d); [|by rewrite app_nil_r].
    rewrite (conditional_append_get is_omim reference_id k)
      by apply omim_ext_ref_spec.
    by rewrite decide_True.
  - destruct (find p_ExternalReferenceList d); [|done].
    rewrite (conditional_append_get is_omim reference_id c)
      by apply omim_ext_ref_spec.
    rewrite decide_False by done. by rewrite app_nil_r.
Qed.

(** ** The three list-valued extractors, on a whole document *)

Lemma dict_get_empty (k : string) : dict_get (∅ : gmap string (list string)) k [] = [].
Proof. unfold dict_get. by rewrite lookup_empty. Qed.

Lemma parse_phenotypes_get root orphacodes target_freq code :
  code ∈ orphacodes →
  dict_get (parse_phenotypes root orphacodes target_freq) code []
  = flat_map (phenotype_entries target_freq) (occurrences root code).
Proof.
  intros Hin. unfold parse_phenotypes, phenotypes_loop, occurrences.
  rewrite (disorder_loop_get orphacodes (phenotype_entries target_freq))
    by (done || apply phenotypes_step_get).
  by rewrite dict_get_empty.
Qed.

Lemma parse_prevalence_get root orphacodes code :
  code ∈ orphacodes →
  dict_get (parse_prevalence root orphacodes) code []
  = flat_map prevalence_entries (occurrences root code).
Proof.
  intros Hin. unfold parse_prevalence, prevalence_loop, occurrences.
  rewrite (disorder_loop_get orphacodes prevalence_entries)
    by (done || apply prevalence_step_get).
  by rewrite dict_get_empty.
Qed.

Lemma parse_omim_get root orphacodes code :
  code ∈ orphacodes →
  dict_get (parse_omim root orphacodes) code []
  = flat_map omim_entries (occurrences root code).
Proof.
  intros Hin. unfold parse_omim, omim_loop, occurrences.
  rewrite (disorder_loop_get orphacodes omim_entries)
    by (done || apply omim_step_get).
  by rewrite dict_get_empty.
Qed.

(** C5. For every document, code set, target frequency and retained code,
    the phenotype list of the code is, over the [Disorder] elements carrying
    the code and in document order, the descriptors of exactly those
    associations whose English frequency name equals the target frequency
    and whose HPO term and HPO id are both non-empty ([keeps]).  In
    particular an association whose HPO id is empty or missing leaves the
    dictionary as it is, whatever its term. *)
Theorem phenotype_extractor_keeps
    (root : Element) (orphacodes : list string) (target_freq code : string) :
  code ∈ orphacodes →
  dict_get (parse_phenotypes root orphacodes target_freq) code []
  = flat_map
      (fun d =>
         match find p_HPODisorderAssociationList d with
         | None => []
         | Some assoc_list =>
             map phenotype_descriptor
                 (filter (fun a => keeps target_freq a = true)
                         (findall p_HPODisorderAssociation assoc_list))
         end)
      (occurrences root code)
  ∧ ∀ (assoc : Element) (phenos : gmap string (list string)),
      truthy_opt (findtext p_HPOId assoc) = false →
      keeps target_freq assoc = false
      ∧ phenotypes_assoc target_freq code phenos assoc = phenos.
Proof.
  intros Hin. split.
  - by apply parse_phenotypes_get.
  - intros assoc phenos Hid.
    assert (keeps target_freq assoc = false) as Hk.
    { unfold keeps. rewrite Hid. by rewrite andb_false_r. }
    split; [done|]. by rewrite phenotypes_assoc_spec, Hk.
Qed.

Lemma phenotype_extractor_keeps_witness :
  dict_get (parse_phenotypes (document [ex_pheno_disorder]) ex_codes
                             default_target_freq) "166024" []
  = ["Seizure (HP:0001250)"]
  ∧ findtext p_HPOTerm ex_assoc_no_id = Some "Ataxia"
  ∧ phenotypes_assoc default_target_freq "166024" ∅ ex_assoc_no_id = ∅.
Proof.
  destruct (phenotype_extractor_keeps (document [ex_pheno_disorder]) ex_codes
              default_target_freq "166024") as [H1 H2].
  { apply list_elem_of_here. }
  split; [|split].
  - etrans; [exact H1|]. vm_compute. reflexivity.
  - vm_compute. reflexivity.
  - apply H2. vm_compute. reflexivity.
Defined.

(** C6. For every document, code set and retained code, the OMIM list of the
    code is, over the [Disorder] elements carrying the code and in document
    order, the reference ids of exactly those external references whose
    source is the literal "OMIM" and whose reference is non-empty, in
    document order; so entries of another source, such as "ICD-10", do not
    appear. *)
Theorem omim_extractor_keeps
    (root : Element) (orphacodes : list string) (code : string) :
  code ∈ orphacodes →
  dict_get (parse_omim root orphacodes) code []
  = flat_map
      (fun d =>
         match find p_ExternalReferenceList d with
         | None => []
         | Some ext_refs =>
             map reference_id
                 (filter (fun r =>
                            findtext p_Source r = Some "OMIM"
                            ∧ truthy_opt (findtext p_Reference r) = true)
                         (findall p_ExternalReference ext_refs))
         end)
      (occurrences root code).
Proof.
  intros Hin. rewrite parse_omim_get by done.
  apply flat_map_ext. intros d. unfold omim_entries.
  destruct (find p_ExternalReferenceList d); [|done].
  f_equal. apply list_filter_iff. intros r. unfold is_omim.
  rewrite andb_true_iff, bool_decide_eq_true. done.
Qed.

Lemma omim_extractor_keeps_witness :
  "166024" ∈ ex_codes
  ∧ dict_get (parse_omim (document [ex_omim_disorder; ex_other_disorder])
                         ex_codes) "166024" []
    = ["607596"; "300005"].
Proof.
  assert ("166024" ∈ ex_codes) as Hin by apply list_elem_of_here.
  split; [exact Hin|].
  etrans; [exact (omim_extractor_keeps _ _ _ Hin)|].
  vm_compute. reflexivity.
Defined.

(** A disorder whose loop body ends in [continue] can be dropped from the
    list of disorders. *)
Lemma fold_left_skip {A B : Type} (step : A → B → A) (d : B)
    (pre post : list B) (m : A) :
  (∀ m', step m' d = m') →
  fold_left step (pre ++ d :: post) m = fold_left step (pre ++ post) m.
Proof. intros Hd. rewrite !fold_left_app. simpl. by rewrite Hd. Qed.

(** C7. A disorder without an HPO association list, without a prevalence
    list or without an external-reference list contributes nothing to the
    corresponding feed: wherever it stands among the disorders, and whatever
    the dictionary built so far, the extractor ends with the dictionary it
    would have built had the disorder not been there.  The extractors are
    total functions: no input makes them fail. *)
Theorem missing_substructure_contributes_nothing
    (orphacodes : list string) (target_freq : string) (d : Element) :
  (find p_HPODisorderAssociationList d = None →
   ∀ pre post m,
     phenotypes_loop orphacodes target_freq (pre ++ d :: post) m
     = phenotypes_loop orphacodes target_freq (pre ++ post) m)
  ∧ (find p_PrevalenceList d = None →
     ∀ pre post m,
       prevalence_loop orphacodes (pre ++ d :: post) m
       = prevalence_loop orphacodes (pre ++ post) m)
  ∧ (find p_ExternalReferenceList d = None →
     ∀ pre post m,
       omim_loop orphacodes (pre ++ d :: post) m
       = omim_loop orphacodes (pre ++ post) m).
Proof.
  repeat split; intros Hnone pre post m.
  - apply fold_left_skip. intros m'. unfold phenotypes_step.
    rewrite Hnone. destruct (findtext p_OrphaCode d); [|done].
    by destruct (bool_decide _).
  - apply fold_left_skip. intros m'. unfold prevalence_step.
    rewrite Hnone. destruct (findtext p_OrphaCode d); [|done].
    by destruct (bool_decide _).
  - apply fold_left_skip. intros m'. unfold omim_step.
    rewrite Hnone. destruct (findtext p_OrphaCode d); [|done].
    by destruct (bool_decide _).
Qed.

Lemma missing_substructure_contributes_nothing_witness :
  phenotypes_loop ex_codes default_target_freq
    [ex_pheno_disorder; ex_bare_disorder; ex_second_occurrence] ∅
  = phenotypes_loop ex_codes default_target_freq
      [ex_pheno_disorder; ex_second_occurrence] ∅
  ∧ prevalence_loop ex_codes
      [ex_prev_disorder; ex_bare_disorder; ex_second_occurrence] ∅
    = prevalence_loop ex_codes [ex_prev_disorder; ex_second_occurrence] ∅
  ∧ omim_loop ex_codes
      [ex_omim_disorder; ex_bare_disorder; ex_second_occurrence] ∅
    = omim_loop ex_codes [ex_omim_disorder; ex_second_occurrence] ∅.
Proof.
  destruct (missing_substructure_contributes_nothing ex_codes
              default_target_freq ex_bare_disorder) as (H1 & H2 & H3).
  split; [|split].
  - exact (H1 eq_refl [ex_pheno_disorder] [ex_second_occurrence] ∅).
  - exact (H2 eq_refl [ex_prev_disorder] [ex_second_occurrence] ∅).
  - exact (H3 eq_refl [ex_omim_disorder] [ex_second_occurrence] ∅).
Defined.

(** ** parse_definitions *)

Lemma truthy_false (s : string) : truthy s = false ↔ s = "".
Proof. destruct s; simpl; split; congruence. Qed.

(** The inner loop returns what the first usable section gives, and the
    incoming value when there is none. *)
Lemma scan_text_sections_spec (sections : list Element) (definition : string) :
  scan_text_sections sections definition
  = match filter usable_section sections with
    | ts :: _ => strip (or_empty (findtext p_Contents ts))
    | [] => definition
    end.
Proof.
  induction sections as [|ts rest IH]; simpl; [done|].
  destruct (is_definition_section ts) eqn:Hdef.
  - destruct (findtext p_Contents ts) as [contents|] eqn:Hc.
    + destruct (truthy contents) eqn:Ht.
      * rewrite filter_cons_True.
        -- rewrite Hc. simpl. by rewrite Ht.
        -- split; [done|]. by rewrite Hc.
      * rewrite filter_cons_False; [done|].
        intros [_ H]. rewrite Hc in H. simpl in H. congruence.
    + rewrite filter_cons_False; [done|].
      intros [_ H]. rewrite Hc in H. discriminate.
  - rewrite filter_cons_False; [done|]. intros [H _]. congruence.
Qed.

Lemma first_nonempty_cons (x : string) (l : list string) :
  first_nonempty (x :: l) = if truthy x then x else first_nonempty l.
Proof.
  unfold first_nonempty. destruct x as [|c x].
  - by rewrite filter_cons_False by (intros H; by apply H).
  - by rewrite filter_cons_True by done.
Qed.

Lemma lang_en_iff (si : Element) :
  dict_get (attrib si) "lang" "" = "en" ↔ has_attr "lang" "en" si.
Proof.
  unfold dict_get, has_attr.
  destruct (attrib si !! "lang"); split; congruence.
Qed.

Lemma scan_summary_infos_cons (si : Element) (rest : list Element)
    (definition : string) :
  scan_summary_infos (si :: rest) definition
  = let definition' :=
      if bool_decide (dict_get (attrib si) "lang" "" = "en")
      then scan_text_sections (findall p_TextSection si) definition
      else definition in
    if truthy definition' then definition'
    else scan_summary_infos rest definition'.
Proof. reflexivity. Qed.

(** The outer loop, entered with the empty string, returns the first
    non-empty offer of the English blocks. *)
Lemma scan_summary_infos_spec (infos : list Element) :
  scan_summary_infos infos ""
  = first_nonempty (map block_definition
                        (filter (has_attr "lang" "en") infos)).
Proof.
  induction infos as [|si rest IH]; [done|].
  rewrite scan_summary_infos_cons. cbv zeta.
  destruct (decide (has_attr "lang" "en" si)) as [Hen|Hen].
  - rewrite bool_decide_eq_true_2 by (by apply lang_en_iff).
    rewrite filter_cons_True by done.
    rewrite map_cons, first_nonempty_cons.
    rewrite scan_text_sections_spec. fold (block_definition si).
    destruct (truthy (block_definition si)) eqn:Ht; [done|].
    apply truthy_false in Ht. rewrite Ht. apply IH.
  - rewrite bool_decide_eq_false_2 by (by rewrite lang_en_iff).
    rewrite filter_cons_False by done.
    change (truthy "") with false. cbv iota. apply IH.
Qed.

Lemma definitions_step_lookup orphacodes (data : gmap string string) d k :
  definitions_step orphacodes data d !! k
  = if decide (has_code k d ∧ k ∈ orphacodes)
    then Some (disorder_definition d) else data !! k.
Proof.
  unfold definitions_step.
  destruct (findtext p_OrphaCode d) as [c|] eqn:Hc.
  - case_bool_decide.
    + destruct (decide (c = k)) as [->|].
      * rewrite (decide_True (P := has_code k d ∧ _)) by (by split).
        by rewrite lookup_insert_eq.
      * rewrite (decide_False (P := has_code k d ∧ _))
          by (unfold has_code; intros [? ?]; congruence).
        by rewrite lookup_insert_ne.
    + rewrite (decide_False (P := has_code k d ∧ _))
        by (unfold has_code; intros [? ?]; congruence). done.
  - rewrite (decide_False (P := has_code k d ∧ _))
      by (unfold has_code; intros [? ?]; congruence). done.
Qed.

(** The dictionary keeps, for a retained code, the definition of the last
    disorder that carries the code. *)
Lemma definitions_loop_lookup orphacodes (ds : list Element)
    (data : gmap string string) (k : string) :
  k ∈ orphacodes →
  definitions_loop orphacodes ds data !! k
  = match last (filter (has_code k) ds) with
    | Some d => Some (disorder_definition d)
    | None => data !! k
    end.
Proof.
  intros Hk. unfold definitions_loop. revert data.
  induction ds as [|d ds IH]; intros data; simpl; [done|].
  rewrite IH, definitions_step_lookup.
  destruct (decide (has_code k d)) as [Hc|Hc].
  - rewrite filter_cons_True by done. rewrite decide_True by done.
    rewrite last_cons. by destruct (last (filter (has_code k) ds)).
  - rewrite filter_cons_False by done. rewrite decide_False by tauto. done.
Qed.

Lemma disorder_definition_spec (d : Element) :
  disorder_definition d
  = first_nonempty (map block_definition (english_blocks d)).
Proof. unfold disorder_definition. apply scan_summary_infos_spec. Qed.

(** C2, as stated, fails: the first English block of [ex_two_blocks] has no
    "Definition" section, so the claim has the extractor store the empty
    string, but the extractor goes on to the second English block and stores
    its definition. *)
Lemma definition_first_block_only_counterexample :
  definition_first_english_block ex_two_blocks = ""
  ∧ definitions_step ex_codes ∅ ex_two_blocks !! "166024"
    = Some "A rare disease."
  ∧ definitions_step ex_codes ∅ ex_two_blocks !! "166024"
    ≠ Some (definition_first_english_block ex_two_blocks).
Proof. vm_compute. repeat split; congruence. Qed.

(** C2, amended. For every disorder whose OrphaCode is in the code set, the
    definition extractor stores for that code the first non-empty offer of
    the disorder's [lang="en"] summary blocks, taken in document order; the
    offer of a block is the stripped Contents of its first text section
    whose English type name is "Definition" and whose Contents is non-empty
    (the empty string when the block has none).  It stores the empty string
    when no English block has a non-empty offer. *)
Theorem definition_first_nonempty_offer
    (orphacodes : list string) (data : gmap string string)
    (d : Element) (code : string) :
  findtext p_OrphaCode d = Some code →
  code ∈ orphacodes →
  definitions_step orphacodes data d !! code
  = Some (first_nonempty (map block_definition (english_blocks d))).
Proof.
  intros Hc Hin. rewrite definitions_step_lookup.
  rewrite decide_True by (by split). by rewrite disorder_definition_spec.
Qed.

Lemma definition_first_nonempty_offer_witness :
  definitions_step ex_codes ∅ ex_two_blocks !! "166024"
  = Some "A rare disease.".
Proof.
  etrans.
  - apply (definition_first_nonempty_offer ex_codes ∅ ex_two_blocks "166024").
    + vm_compute. reflexivity.
    + apply list_elem_of_here.
  - vm_compute. reflexivity.
Defined.

Lemma filter_none {A : Type} (P : A → Prop) `{!∀ x, Decision (P x)}
    (l : list A) :
  (∀ x, x ∈ l → ¬ P x) → filter P l = [].
Proof.
  induction l as [|x l IH]; intros Hl; [done|].
  rewrite filter_cons_False by (apply Hl; left).
  apply IH. intros y Hy. apply Hl. by right.
Qed.

(** C3, as stated, fails: [ex_two_blocks] has two English blocks of which
    only the second has a definition, yet in a document where a later
    [Disorder] element carries the same code the extractor returns the later
    element's (empty) definition for the code. *)
Lemma definition_from_second_block_counterexample :
  occurrences (document [ex_two_blocks; ex_bare_disorder]) "166024"
  = [ex_two_blocks; ex_bare_disorder]
  ∧ map block_definition (english_blocks ex_two_blocks)
    = [""; "A rare disease."]
  ∧ parse_definitions (document [ex_two_blocks; ex_bare_disorder]) ex_codes
      !! "166024" = Some ""
  ∧ parse_definitions (document [ex_two_blocks; ex_bare_disorder]) ex_codes
      !! "166024" ≠ Some "A rare disease.".
Proof. vm_compute. repeat split; congruence. Qed.

(** C3, amended. For every document and every code of the code set: when
    the last [Disorder] element carrying the code has English summary
    blocks starting with [s1] and [s2], where [s1] has no "Definition"
    section with non-empty Contents and the first such section of [s2] has
    Contents [c], the definition extractor maps the code to the stripped
    [c] if these are the only two English blocks; and when the stripped [c]
    is non-empty it does so whatever English blocks follow, the scan
    stopping at the first non-empty definition.  What earlier [Disorder]
    elements with the same code gave is overwritten. *)
Theorem definition_from_second_block
    (root : Element) (orphacodes : list string) (code : string)
    (earlier : list Element) (d : Element)
    (s1 s2 : Element) (more : list Element)
    (before : list Element) (ts : Element) (after : list Element)
    (c : string) :
  code ∈ orphacodes →
  occurrences root code = earlier ++ [d] →
  english_blocks d = s1 :: s2 :: more →
  (∀ ts1, ts1 ∈ findall p_TextSection s1 →
          is_definition_section ts1 = true →
          truthy_opt (findtext p_Contents ts1) = false) →
  findall p_TextSection s2 = before ++ ts :: after →
  (∀ ts2, ts2 ∈ before →
          is_definition_section ts2 = true →
          truthy_opt (findtext p_Contents ts2) = false) →
  is_definition_section ts = true →
  findtext p_Contents ts = Some c →
  truthy c = true →
  more = [] ∨ strip c ≠ "" →
  parse_definitions root orphacodes !! code = Some (strip c).
Proof.
  intros Hin Hocc Hblocks Hs1 Hs2 Hbefore Hdef Hcont Hne Hmore.
  unfold parse_definitions. rewrite definitions_loop_lookup by done.
  fold (occurrences root code). rewrite Hocc, last_snoc.
  rewrite disorder_definition_spec. f_equal.
  rewrite Hblocks. rewrite !map_cons, !first_nonempty_cons.
  assert (block_definition s1 = "") as ->.
  { unfold block_definition. rewrite filter_none; [done|].
    intros x Hx [Hd Ht]. rewrite (Hs1 x Hx Hd) in Ht. discriminate. }
  assert (block_definition s2 = strip c) as ->.
  { unfold block_definition. rewrite Hs2, filter_app.
    rewrite filter_none.
    2:{ intros x Hx [Hd Ht]. rewrite (Hbefore x Hx Hd) in Ht. discriminate. }
    rewrite filter_cons_True.
    2:{ split; [done|]. rewrite Hcont. exact Hne. }
    simpl. rewrite Hcont. simpl. by rewrite Hne. }
  change (truthy "") with false. cbv iota.
  destruct (truthy (strip c)) eqn:Ht; [done|].
  apply truthy_false in Ht. destruct Hmore as [->|Hs]; [|done].
  rewrite Ht. reflexivity.
Qed.

Lemma definition_from_second_block_witness :
  parse_definitions (document [ex_bare_disorder; ex_other_disorder;
                               ex_two_blocks]) ex_codes !! "166024"
  = Some (strip "  A rare disease.  ").
Proof.
  apply (definition_from_second_block
           (document [ex_bare_disorder; ex_other_disorder; ex_two_blocks])
           ex_codes "166024" [ex_bare_disorder] ex_two_blocks
           (summary_info "en"
              [text_section "Clinical description" "Onset in infancy."])
           (summary_info "en" [text_section "Definition" "  A rare disease.  "])
           []
           [] (text_section "Definition" "  A rare disease.  ") []).
  - apply list_elem_of_here.
  - vm_compute. reflexivity.
  - vm_compute. reflexivity.
  - intros ts1 Hts1 Hd.
    apply list_elem_of_singleton in Hts1. subst ts1.
    vm_compute in Hd. discriminate.
  - vm_compute. reflexivity.
  - intros ts2 Hts2. by apply elem_of_nil in Hts2.
  - vm_compute. reflexivity.
  - vm_compute. reflexivity.
  - reflexivity.
  - by left.
Defined.

(** The other ordering: when the first English block has the definition, it
    is the one stored. *)
Example definition_from_first_block :
  definitions_step ex_codes ∅ ex_two_blocks_swapped !! "166024"
  = Some "A rare disease.".
Proof. vm_compute. reflexivity. Qed.

(** ** A code carried by two disorders *)

(** C9. For every document in which exactly two [Disorder] elements, [d1]
    before [d2], carry the same retained code: the definition stored for the
    code is the one extracted from [d2], whatever [d1] gave (also when
    [d2]'s is empty and [d1]'s is not), whereas the phenotype, prevalence and
    OMIM lists of the code are the entries of [d1] followed by the entries of
    [d2]. *)
Theorem duplicate_code_overwrites_definition_concatenates_lists
    (root : Element) (orphacodes : list string) (target_freq code : string)
    (d1 d2 : Element) :
  code ∈ orphacodes →
  occurrences root code = [d1; d2] →
  parse_definitions root orphacodes !! code = Some (disorder_definition d2)
  ∧ dict_get (parse_phenotypes root orphacodes target_freq) code []
    = phenotype_entries target_freq d1 ++ phenotype_entries target_freq d2
  ∧ dict_get (parse_prevalence root orphacodes) code []
    = prevalence_entries d1 ++ prevalence_entries d2
  ∧ dict_get (parse_omim root orphacodes) code []
    = omim_entries d1 ++ omim_entries d2.
Proof.
  intros Hin Hocc. repeat split.
  - unfold parse_definitions. rewrite definitions_loop_lookup by done.
    fold (occurrences root code). by rewrite Hocc.
  - rewrite parse_phenotypes_get, Hocc by done. simpl. by rewrite app_nil_r.
  - rewrite parse_prevalence_get, Hocc by done. simpl. by rewrite app_nil_r.
  - rewrite parse_omim_get, Hocc by done. simpl. by rewrite app_nil_r.
Qed.

Lemma duplicate_code_overwrites_definition_concatenates_lists_witness :
  disorder_definition ex_first_occurrence = "A rare disease."
  ∧ parse_definitions
      (document [ex_first_occurrence; ex_other_disorder; ex_second_occurrence])
      ex_codes !! "166024" = Some ""
  ∧ dict_get (parse_phenotypes
      (document [ex_first_occurrence; ex_other_disorder; ex_second_occurrence])
      ex_codes default_target_freq) "166024" []
    = ["Seizure (HP:0001250)"; "Ataxia (HP:0001251)"]
  ∧ dict_get (parse_prevalence
      (document [ex_first_occurrence; ex_other_disorder; ex_second_occurrence])
      ex_codes) "166024" []
    = ["1.0"; "2.0"]
  ∧ dict_get (parse_omim
      (document [ex_first_occurrence; ex_other_disorder; ex_second_occurrence])
      ex_codes) "166024" []
    = ["607596"; "300005"].
Proof.
  destruct (duplicate_code_overwrites_definition_concatenates_lists
              (document [ex_first_occurrence; ex_other_disorder;
                         ex_second_occurrence])
              ex_codes default_target_freq "166024"
              ex_first_occurrence ex_second_occurrence)
    as (H1 & H2 & H3 & H4).
  - apply list_elem_of_here.
  - vm_compute. reflexivity.
  - split; [vm_compute; reflexivity|].
    split; [etrans; [exact H1|vm_compute; reflexivity]|].
    split; [etrans; [exact H2|vm_compute; reflexivity]|].
    split; [etrans; [exact H3|vm_compute; reflexivity]|].
    etrans; [exact H4|vm_compute; reflexivity].
Defined.

(** ** One descriptor per Prevalence element *)

(** C10. For every retained disorder with a prevalence list, the extractor
    appends to the list of the disorder's code exactly one descriptor per
    [Prevalence] element, in document order; the descriptor of an element
    whose mean value, class name and source text are all empty or missing is
    the empty string; and such an element shows in the merged prevalence
    field as an empty item between ["; "] separators. *)
Theorem one_descriptor_per_prevalence_element :
  (∀ (orphacodes : list string) (prev_data : gmap string (list string))
     (d prev_list : Element) (code : string),
      findtext p_OrphaCode d = Some code →
      code ∈ orphacodes →
      find p_PrevalenceList d = Some prev_list →
      dict_get (prevalence_step orphacodes prev_data d) code []
      = dict_get prev_data code []
        ++ map prevalence_descriptor (findall p_Prevalence prev_list)
      ∧ length (dict_get (prevalence_step orphacodes prev_data d) code [])
        = length (dict_get prev_data code [])
          + length (findall p_Prevalence prev_list))
  ∧ (∀ prev : Element,
      truthy_opt (findtext p_ValMoy prev) = false →
      truthy_opt (findtext p_PrevalenceClass_Name prev) = false →
      truthy_opt (findtext p_Source prev) = false →
      prevalence_descriptor prev = "")
  ∧ Prevalence
      (csv_row ∅ ∅ (parse_prevalence (document [ex_prev_disorder]) ex_codes) ∅
               "166024")
    = "1.0; ; 2.0".
Proof.
  split; [|split].
  - intros orphacodes prev_data d prev_list code Hc Hin Hfind.
    assert (dict_get (prevalence_step orphacodes prev_data d) code []
            = dict_get prev_data code []
              ++ map prevalence_descriptor (findall p_Prevalence prev_list))
      as Heq.
    { rewrite prevalence_step_get. rewrite decide_True by (by split).
      unfold prevalence_entries. by rewrite Hfind. }
    split; [exact Heq|]. by rewrite Heq, length_app, length_map.
  - intros prev Hval Hclass Hsrc. unfold prevalence_descriptor.
    rewrite <- truthy_or_empty in Hval, Hclass, Hsrc.
    apply truthy_false in Hval, Hclass, Hsrc.
    rewrite Hval, Hclass, Hsrc. reflexivity.
  - vm_compute. reflexivity.
Qed.

Lemma one_descriptor_per_prevalence_element_witness :
  dict_get (prevalence_step ex_codes ∅ ex_prev_disorder) "166024" []
  = ["1.0"; ""; "2.0"]
  ∧ prevalence_descriptor (node "Prevalence" [node "ValMoy" []; leaf "Source" ""])
    = "".
Proof.
  destruct one_descriptor_per_prevalence_element as (H1 & H2 & _).
  split.
  - destruct (H1 ex_codes ∅ ex_prev_disorder
                 (node "PrevalenceList"
                    [node "Prevalence" [leaf "ValMoy" "1.0"];
                     node "Prevalence" [node "ValMoy" []; leaf "Source" ""];
                     node "Prevalence" [leaf "ValMoy" "2.0"]])
                 "166024") as [Heq _].
    + vm_compute. reflexivity.
    + apply list_elem_of_here.
    + vm_compute. reflexivity.
    + etrans; [exact Heq|vm_compute; reflexivity].
  - apply H2; vm_compute; reflexivity.
Defined.

(** ** The PMID pattern *)

Lemma string_app_assoc (a b c : string) : (a +:+ b) +:+ c = a +:+ b +:+ c.
Proof.
  induction a as [|x a IH]; [done|].
  change (String x ((a +:+ b) +:+ c) = String x (a +:+ b +:+ c)).
  by f_equal.
Qed.

Lemma string_length_app (a b : string) :
  String.length (a +:+ b) = String.length a + String.length b.
Proof.
  induction a as [|x a IH]; [done|].
  change (S (String.length (a +:+ b)) = S (String.length a + String.length b)).
  by f_equal.
Qed.

Lemma match_pmid_not_digit (c : ascii) (s : string) :
  isdigit c = false → match_pmid (String c s) = None.
Proof. intros Hc. simpl. by rewrite Hc. Qed.

(** Text without digits holds no match. *)
Lemma findall_from_no_digit (sep s : string) :
  no_digit sep = true →
  findall_from 0 (sep +:+ s) = findall_from 0 s.
Proof.
  induction sep as [|c sep IH]; intros Hsep; [done|].
  apply andb_true_iff in Hsep as [Hc Hsep]. apply negb_true_iff in Hc.
  change (String c sep +:+ s) with (String c (sep +:+ s)).
  cbn [findall_from]. rewrite match_pmid_not_digit by done. by apply IH.
Qed.

Lemma findall_from_no_digit_end (tl : string) :
  no_digit tl = true → findall_from 0 tl = [].
Proof.
  induction tl as [|c tl IH]; intros Htl; [done|].
  apply andb_true_iff in Htl as [Hc Htl]. apply negb_true_iff in Hc.
  cbn [findall_from]. rewrite match_pmid_not_digit by done. by apply IH.
Qed.

(** A run of digits followed by [[PMID]] is matched whole. *)
Lemma match_pmid_digits (id s : string) :
  is_digits id = true →
  match_pmid (id +:+ "[PMID]" +:+ s) = Some (id, String.length id + 6).
Proof.
  unfold is_digits. induction id as [|c id IH]; [done|].
  intros Hid. apply andb_true_iff in Hid as [_ Hid].
  apply andb_true_iff in Hid as [Hc Hid].
  change (String c id +:+ "[PMID]" +:+ s)
    with (String c (id +:+ "[PMID]" +:+ s)).
  cbn [match_pmid]. rewrite Hc.
  destruct id as [|c' id'].
  - reflexivity.
  - rewrite IH by exact Hid. reflexivity.
Qed.

(** The characters of a match are passed over. *)
Lemma findall_from_skip (a s : string) :
  findall_from (String.length a) (a +:+ s) = findall_from 0 s.
Proof. induction a as [|c a IH]; [by destruct s|]. exact IH. Qed.

Lemma findall_from_citation (id s : string) :
  is_digits id = true →
  findall_from 0 (id +:+ "[PMID]" +:+ s) = id :: findall_from 0 s.
Proof.
  intros Hid. pose proof (match_pmid_digits id s Hid) as Hm.
  destruct id as [|c id]; [done|].
  change (String c id +:+ "[PMID]" +:+ s)
    with (String c (id +:+ "[PMID]" +:+ s)) in *.
  cbn [findall_from]. rewrite Hm. f_equal.
  change (pred (String.length (String c id) + 6)) with (String.length id + 6).
  rewrite <- (string_app_assoc id "[PMID]" s).
  replace (String.length id + 6) with (String.length (id +:+ "[PMID]"))
    by (by rewrite string_length_app).
  apply findall_from_skip.
Qed.

(** On a text of citations the pattern finds the ids, in order. *)
Lemma pmid_findall_citations (cites : list (string * string)) (tl : string) :
  Forall (fun '(sep, id) => no_digit sep = true ∧ is_digits id = true) cites →
  no_digit tl = true →
  pmid_findall (citations cites tl) = map snd cites.
Proof.
  intros Hcites Htl. unfold pmid_findall.
  induction Hcites as [|[sep id] cites [Hsep Hid] _ IH]; simpl.
  - by apply findall_from_no_digit_end.
  - rewrite findall_from_no_digit by done.
    rewrite findall_from_citation by done. by rewrite IH.
Qed.

Lemma string_app_nil_r (a : string) : a +:+ "" = a.
Proof.
  induction a as [|x a IH]; [done|].
  change (String x (a +:+ "") = String x a). by f_equal.
Qed.

Lemma startswith_digit (s : string) :
  starts_with_digit s = true → startswith "[PMID]" s = false.
Proof.
  destruct s as [|c s]; [done|]. simpl. intros Hc.
  case_bool_decide as Heq; [|done]. subst c. discriminate.
Qed.

(** A run of digits that is not followed by [[PMID]] matches nowhere. *)
Lemma match_pmid_run_fails (run s : string) :
  string_forall isdigit run = true →
  starts_with_digit s = false →
  startswith "[PMID]" s = false →
  match_pmid (run +:+ s) = None.
Proof.
  intros Hrun Hs Hlit. induction run as [|d run IH].
  - destruct s as [|c s]; [done|]. simpl in *. by rewrite Hs.
  - apply andb_true_iff in Hrun as [Hd Hrun].
    change (String d run +:+ s) with (String d (run +:+ s)).
    cbn [match_pmid]. rewrite Hd, (IH Hrun).
    destruct run as [|d' run'].
    + change ("" +:+ s) with s. by rewrite Hlit.
    + rewrite startswith_digit; [done|].
      apply andb_true_iff in Hrun as [Hd' _]. exact Hd'.
Qed.

Lemma findall_from_run_fails (run s : string) :
  string_forall isdigit run = true →
  starts_with_digit s = false →
  startswith "[PMID]" s = false →
  findall_from 0 (run +:+ s) = findall_from 0 s.
Proof.
  intros Hrun Hs Hlit. induction run as [|d run IH]; [done|].
  pose proof (match_pmid_run_fails _ _ Hrun Hs Hlit) as Hm.
  apply andb_true_iff in Hrun as [Hd Hrun].
  change (String d run +:+ s) with (String d (run +:+ s)) in *.
  cbn [findall_from]. rewrite Hm. by apply IH.
Qed.

Lemma startswith_split (s : string) :
  startswith "[PMID]" s = true → ∃ s', s = "[PMID]" +:+ s'.
Proof.
  intros H.
  repeat (destruct s as [|? s]; [discriminate|];
          simpl in H; apply andb_true_iff in H as [?%bool_decide_eq_true H];
          subst).
  by exists s.
Qed.

(** The backtracking scan finds the runs of digits followed by [[PMID]]:
    with [run] a run of digits standing just before [s], both readings of
    [run +:+ s] agree. *)
Lemma findall_from_runs (s : string) :
  ∀ run, string_forall isdigit run = true →
         findall_from 0 (run +:+ s) = pmid_runs_from run s.
Proof.
  induction s as [|c s IH]; intros run Hrun.
  - rewrite (findall_from_run_fails run "") by done. reflexivity.
  - cbn [pmid_runs_from]. destruct (isdigit c) eqn:Hc.
    + rewrite <- IH.
      * by rewrite string_app_assoc.
      * clear IH. induction run as [|d run IHr]; simpl; [by rewrite Hc|].
        apply andb_true_iff in Hrun as [-> Hrun]. by apply IHr.
    + assert (findall_from 0 (String c s) = pmid_runs_from "" s) as Hrest.
      { cbn [findall_from]. rewrite match_pmid_not_digit by done.
        by apply (IH ""). }
      destruct (startswith "[PMID]" (String c s)) eqn:Hlit.
      * destruct (truthy run) eqn:Hne; simpl.
        -- apply startswith_split in Hlit as [s' Hs']. rewrite Hs'.
           rewrite findall_from_citation
             by (unfold is_digits; by rewrite Hne, Hrun).
           f_equal. rewrite <- Hrest, Hs'.
           symmetry. by apply (findall_from_no_digit "[PMID]").
        -- apply truthy_false in Hne. subst run. exact Hrest.
      * rewrite andb_false_r. simpl.
        rewrite findall_from_run_fails by (done || by simpl).
        exact Hrest.
Qed.

Lemma pmid_findall_runs (source_text : string) :
  pmid_findall source_text = pmid_runs source_text.
Proof. apply (findall_from_runs source_text ""). reflexivity. Qed.

Lemma prevalence_descriptor_spec (prev : Element) :
  prevalence_descriptor prev
  = descriptor_base prev
    +:+ pmid_suffix (pmid_runs (or_empty (findtext p_Source prev))).
Proof.
  unfold prevalence_descriptor, descriptor_base.
  rewrite pmid_findall_runs.
  destruct (pmid_runs (or_empty (findtext p_Source prev))); simpl.
  - by rewrite string_app_nil_r.
  - reflexivity.
Qed.

Lemma prevalence_entries_spec (d : Element) :
  prevalence_entries d
  = match find p_PrevalenceList d with
    | None => []
    | Some prev_list => map entry_descriptor (findall p_Prevalence prev_list)
    end.
Proof.
  unfold prevalence_entries. destruct (find p_PrevalenceList d); [|done].
  apply map_ext. intros prev. apply prevalence_descriptor_spec.
Qed.

(** C4, as stated, fails: for the one prevalence entry of the retained
    disorder [ex_pmid_disorder], whose Source text is the one of the
    specification, the extractor's item is not the entry's descriptor
    followed by "(PMID:12345678,87654321)": the code puts a space before the
    opening parenthesis. *)
Lemma prevalence_pmid_suffix_counterexample :
  findtext p_Source ex_prev_pmid = Some "12345678[PMID], 87654321[PMID]"
  ∧ descriptor_base ex_prev_pmid = "2.5 (1-9 / 100 000)"
  ∧ dict_get (parse_prevalence (document [ex_pmid_disorder]) ex_codes)
             "166024" []
    = ["2.5 (1-9 / 100 000) (PMID:12345678,87654321)"]
  ∧ dict_get (parse_prevalence (document [ex_pmid_disorder]) ex_codes)
             "166024" []
    ≠ [descriptor_base ex_prev_pmid +:+ "(PMID:12345678,87654321)"].
Proof. vm_compute. repeat split; congruence. Qed.

(** C4, amended. For every document and every code of the code set, the
    prevalence list of the code holds, for the [Disorder] elements carrying
    the code and their [Prevalence] entries in document order, one item per
    entry: the mean value and the parenthesized class name (if any),
    followed, when the Source text holds one or more runs of digits
    immediately followed by the literal "[PMID]", by a space, "(PMID:",
    those runs comma-joined in order of occurrence, and ")".  So for every
    entry of a retained disorder whose Source text is
    "12345678[PMID], 87654321[PMID]" the list holds the entry's descriptor
    followed by " (PMID:12345678,87654321)". *)
Theorem prevalence_pmid_suffix
    (root : Element) (orphacodes : list string) (code : string) :
  code ∈ orphacodes →
  dict_get (parse_prevalence root orphacodes) code []
  = flat_map
      (fun d =>
         match find p_PrevalenceList d with
         | None => []
         | Some prev_list =>
             map (fun prev =>
                    descriptor_base prev
                    +:+ pmid_suffix
                          (pmid_runs (or_empty (findtext p_Source prev))))
                 (findall p_Prevalence prev_list)
         end)
      (occurrences root code)
  ∧ ∀ (d prev_list prev : Element),
      d ∈ occurrences root code →
      find p_PrevalenceList d = Some prev_list →
      prev ∈ findall p_Prevalence prev_list →
      findtext p_Source prev = Some "12345678[PMID], 87654321[PMID]" →
      pmid_findall "12345678[PMID], 87654321[PMID]"
      = ["12345678"; "87654321"]
      ∧ descriptor_base prev +:+ " (PMID:12345678,87654321)"
        ∈ dict_get (parse_prevalence root orphacodes) code [].
Proof.
  intros Hin.
  assert (dict_get (parse_prevalence root orphacodes) code []
          = flat_map
              (fun d =>
                 match find p_PrevalenceList d with
                 | None => []
                 | Some prev_list =>
                     map entry_descriptor (findall p_Prevalence prev_list)
                 end)
              (occurrences root code)) as Heq.
  { rewrite parse_prevalence_get by done.
    apply flat_map_ext. intros d. apply prevalence_entries_spec. }
  split; [exact Heq|].
  intros d prev_list prev Hd Hfind Hprev Hsrc.
  split; [vm_compute; reflexivity|].
  rewrite Heq. apply list_elem_of_In, in_flat_map.
  exists d. split; [by apply list_elem_of_In|]. rewrite Hfind.
  apply in_map_iff. exists prev. split; [|by apply list_elem_of_In].
  unfold entry_descriptor. rewrite Hsrc. reflexivity.
Qed.

Lemma prevalence_pmid_suffix_witness :
  dict_get (parse_prevalence
              (document [ex_prev_disorder; ex_other_disorder;
                         ex_pmid_disorder]) ex_codes) "166024" []
  = ["1.0"; ""; "2.0"; "2.5 (1-9 / 100 000) (PMID:12345678,87654321)"]
  ∧ descriptor_base ex_prev_pmid +:+ " (PMID:12345678,87654321)"
    ∈ dict_get (parse_prevalence
                  (document [ex_prev_disorder; ex_other_disorder;
                             ex_pmid_disorder]) ex_codes) "166024" [].
Proof.
  destruct (prevalence_pmid_suffix
              (document [ex_prev_disorder; ex_other_disorder;
                         ex_pmid_disorder]) ex_codes "166024")
    as [Heq Hitem].
  { apply list_elem_of_here. }
  split.
  - etrans; [exact Heq|]. vm_compute. reflexivity.
  - apply (Hitem ex_pmid_disorder (node "PrevalenceList" [ex_prev_pmid])
                 ex_prev_pmid).
    + vm_compute. apply list_elem_of_further, list_elem_of_here.
    + vm_compute. reflexivity.
    + vm_compute. apply list_elem_of_here.
    + vm_compute. reflexivity.
Defined.

(** Digits that are not followed by [[PMID]] are passed over. *)
Example pmid_findall_other_digits :
  pmid_findall "Smith 2001, 11111111[PMID]; 7[PMID] 42 [PMID]"
  = ["11111111"; "7"].
Proof. vm_compute. reflexivity. Qed.

(** * Properties of the rest of the scripts *)

Lemma truthy_true_ne (s : string) : truthy s = true → s ≠ "".
Proof. by destruct s. Qed.

(** ** str.strip *)

Lemma lstrip_head (s : string) : starts_with_space (lstrip s) = false.
Proof.
  induction s as [|c s IH]; [done|]. simpl.
  destruct (isspace c) eqn:Hc; [exact IH|]. simpl. exact Hc.
Qed.

Lemma lstrip_fixed (s : string) :
  starts_with_space s = false → lstrip s = s.
Proof. destruct s as [|c s]; [done|]. simpl. by intros ->. Qed.

Lemma rstrip_cons (c : ascii) (s : string) :
  rstrip (String c s)
  = if truthy (rstrip s) then String c (rstrip s)
    else if isspace c then "" else String c "".
Proof. simpl. by destruct (rstrip s). Qed.

Lemma rstrip_head (s : string) :
  starts_with_space s = false → starts_with_space (rstrip s) = false.
Proof.
  destruct s as [|c s]; [done|]. intros Hc. simpl in Hc.
  rewrite rstrip_cons, Hc. by destruct (truthy (rstrip s)).
Qed.

Lemma rstrip_idemp (s : string) : rstrip (rstrip s) = rstrip s.
Proof.
  induction s as [|c s IH]; [done|]. rewrite rstrip_cons.
  destruct (truthy (rstrip s)) eqn:Ht.
  - by rewrite rstrip_cons, IH, Ht.
  - destruct (isspace c) eqn:Hc; [done|].
    rewrite rstrip_cons. simpl. by rewrite Hc.
Qed.

(** Stripping twice is stripping once. *)
Lemma strip_idemp (s : string) : strip (strip s) = strip s.
Proof.
  unfold strip.
  rewrite (lstrip_fixed (rstrip (lstrip s)))
    by apply rstrip_head, lstrip_head.
  apply rstrip_idemp.
Qed.

Lemma strip_empty : strip "" = "".
Proof. reflexivity. Qed.

(** ** load_orphacodes *)

(** X1. The codes loaded from the text file are exactly the stripped forms
    of its lines that are not blank; so no loaded code is empty, and none
    has white space at either end. *)
Theorem load_orphacodes_members (lines : list string) (c : string) :
  (c ∈ load_orphacodes lines
   ↔ c ≠ "" ∧ ∃ line, line ∈ lines ∧ strip line = c)
  ∧ (c ∈ load_orphacodes lines → strip c = c).
Proof.
  assert (c ∈ load_orphacodes lines
          ↔ c ≠ "" ∧ ∃ line, line ∈ lines ∧ strip line = c) as Hiff.
  { unfold load_orphacodes. rewrite elem_of_list_to_set.
    change (map strip ?l) with (strip <$> l).
    rewrite list_elem_of_fmap. split.
    - intros (line & -> & Hline). apply list_elem_of_filter in Hline as [Ht Hl].
      split; [by apply truthy_true_ne|]. by exists line.
    - intros (Hne & line & Hl & <-). exists line. split; [done|].
      apply list_elem_of_filter. split; [|done].
      by destruct (strip line). }
  split; [exact Hiff|].
  intros (_ & line & _ & <-)%Hiff. apply strip_idemp.
Qed.

Lemma load_orphacodes_members_witness :
  "558" ∈ load_orphacodes [" 166024 "; "   "; " 558 "]
  ∧ strip "558" = "558".
Proof.
  destruct (load_orphacodes_members [" 166024 "; "   "; " 558 "] "558")
    as [Hiff Hfix].
  assert ("558" ∈ load_orphacodes [" 166024 "; "   "; " 558 "]) as Hin.
  { apply Hiff. split; [discriminate|]. exists " 558 ".
    split; [|reflexivity]. do 2 apply list_elem_of_further.
    apply list_elem_of_here. }
  split; [exact Hin|exact (Hfix Hin)].
Defined.

(** ** Loops and characters *)

Lemma fold_left_invariant {A B : Type} (P : A → Prop) (step : A → B → A)
    (l : list B) (a : A) :
  P a → (∀ a' b, b ∈ l → P a' → P (step a' b)) → P (fold_left step l a).
Proof.
  revert a. induction l as [|b l IH]; intros a Ha Hstep; [done|].
  simpl. apply IH.
  - apply Hstep; [left|done].
  - intros a' b' Hb'. apply Hstep. by right.
Qed.

Lemma string_forall_app (p : ascii → bool) (a b : string) :
  string_forall p (a +:+ b) = string_forall p a && string_forall p b.
Proof.
  induction a as [|c a IH]; [done|].
  change (String c a +:+ b) with (String c (a +:+ b)). simpl.
  by rewrite IH, andb_assoc.
Qed.

Lemma string_forall_impl (p q : ascii → bool) (s : string) :
  (∀ c, p c = true → q c = true) →
  string_forall p s = true → string_forall q s = true.
Proof.
  intros Hpq. induction s as [|c s IH]; [done|]. simpl.
  intros [Hc Hs]%andb_true_iff. by rewrite (Hpq c Hc), IH.
Qed.

Lemma digit_not_space (c : ascii) : isdigit c = true → isspace c = false.
Proof. destruct c as [[] [] [] [] [] [] [] []]; vm_compute; congruence. Qed.

Lemma digit_not_comma (c : ascii) : isdigit c = true → c ≠ comma.
Proof. intros Hc ->. vm_compute in Hc. discriminate. Qed.

Lemma space_not_comma (c : ascii) : isspace c = true → c ≠ comma.
Proof. intros Hc ->. vm_compute in Hc. discriminate. Qed.

(** ** load_orphacodes_from_excel *)

Lemma take_digits_all (s : string) :
  string_forall isdigit (take_digits s) = true.
Proof.
  induction s as [|c s IH]; [done|]. simpl.
  destruct (isdigit c) eqn:Hc; [|done]. simpl. by rewrite Hc, IH.
Qed.

Lemma match_leading_digits_some (part g : string) :
  match_leading_digits part = Some g → is_digits g = true.
Proof.
  unfold match_leading_digits, is_digits.
  destruct (truthy (take_digits part)) eqn:Ht; [|done].
  intros [= <-]. by rewrite Ht, take_digits_all.
Qed.

Lemma excel_part_members (parts : list string) (S : gset string) (c : string) :
  c ∈ fold_left excel_part parts S
  ↔ c ∈ S ∨ ∃ part, part ∈ parts ∧ match_leading_digits part = Some c.
Proof.
  revert S. induction parts as [|p parts IH]; intros S; simpl.
  - split; [by left|]. intros [?|(? & []%elem_of_nil & _)]. done.
  - rewrite IH. unfold excel_part at 1.
    destruct (match_leading_digits p) as [g|] eqn:Hp.
    + rewrite elem_of_union, elem_of_singleton. split.
      * intros [[->|?]|(part & ? & ?)].
        -- right. exists p. split; [left|done].
        -- by left.
        -- right. exists part. split; [by right|done].
      * intros [?|(part & [->|?]%elem_of_cons & Hm)].
        -- left. by right.
        -- left. left. congruence.
        -- right. by exists part.
    + split.
      * intros [?|(part & ? & ?)]; [by left|].
        right. exists part. split; [by right|done].
      * intros [?|(part & [->|?]%elem_of_cons & Hm)].
        -- by left.
        -- congruence.
        -- right. by exists part.
Qed.

Lemma excel_entry_members (entries : list string) (S : gset string)
    (c : string) :
  c ∈ fold_left excel_entry entries S
  ↔ c ∈ S ∨ ∃ entry part,
        entry ∈ entries ∧ part ∈ split comma entry
        ∧ match_leading_digits (strip part) = Some c.
Proof.
  revert S. induction entries as [|e entries IH]; intros S; simpl.
  - split; [by left|]. intros [?|(? & ? & []%elem_of_nil & _)]. done.
  - rewrite IH. unfold excel_entry at 1. rewrite excel_part_members.
    change (map strip ?l) with (strip <$> l).
    setoid_rewrite list_elem_of_fmap. split.
    + intros [[?|(part & (p & -> & Hp) & Hm)]|(entry & part & ? & ? & ?)].
      * by left.
      * right. exists e, p. split; [left|done].
      * right. exists entry, part. split; [by right|done].
    + intros [?|(entry & part & [->|?]%elem_of_cons & Hp & Hm)].
      * left. by left.
      * left. right. exists (strip part). split; [|done]. by exists part.
      * right. by exists entry, part.
Qed.

(** X2. Every code loaded from the spreadsheet column is a non-empty run of
    digits, whatever the cells hold. *)
Theorem load_orphacodes_from_excel_digits (entries : list string) (c : string) :
  c ∈ load_orphacodes_from_excel entries → is_digits c = true.
Proof.
  unfold load_orphacodes_from_excel. rewrite excel_entry_members.
  intros [[]%elem_of_empty|(entry & part & _ & _ & Hm)].
  by apply (match_leading_digits_some (strip part)).
Qed.

Lemma load_orphacodes_from_excel_digits_witness :
  "558" ∈ load_orphacodes_from_excel ["166024 (del 1p36), 558"; "n/a"]
  ∧ is_digits "558" = true.
Proof.
  assert ("558" ∈ load_orphacodes_from_excel
                    ["166024 (del 1p36), 558"; "n/a"]) as Hin.
  { apply (bool_decide_unpack _). vm_compute. exact I. }
  split; [exact Hin|].
  exact (load_orphacodes_from_excel_digits _ _ Hin).
Defined.

(** *** str.split and str.join *)

Lemma split_piece (sep : ascii) (p rest : string) :
  free_of sep p = true →
  split sep (p +:+ String sep rest) = p :: split sep rest.
Proof.
  induction p as [|c p IH]; intros Hp.
  - change ("" +:+ String sep rest) with (String sep rest). simpl.
    by rewrite bool_decide_eq_true_2.
  - simpl in Hp. apply andb_true_iff in Hp as [Hc Hp].
    apply negb_true_iff, bool_decide_eq_false in Hc.
    change (String c p +:+ String sep rest)
      with (String c (p +:+ String sep rest)).
    cbn [split]. rewrite bool_decide_eq_false_2 by done. by rewrite IH.
Qed.

Lemma split_last_piece (sep : ascii) (p : string) :
  free_of sep p = true → split sep p = [p].
Proof.
  induction p as [|c p IH]; intros Hp; [done|].
  simpl in Hp. apply andb_true_iff in Hp as [Hc Hp].
  apply negb_true_iff, bool_decide_eq_false in Hc.
  cbn [split]. rewrite bool_decide_eq_false_2 by done. by rewrite IH.
Qed.

(** Splitting undoes joining when no piece holds the separator. *)
Lemma split_join (sep : ascii) (pieces : list string) :
  pieces ≠ [] →
  Forall (fun p => free_of sep p = true) pieces →
  split sep (join (String sep "") pieces) = pieces.
Proof.
  intros Hne Hfree. induction Hfree as [|p pieces Hp Hfree IH]; [done|].
  destruct pieces as [|q pieces].
  - simpl. by apply split_last_piece.
  - change (join (String sep "") (p :: q :: pieces))
      with (p +:+ String sep "" +:+ join (String sep "") (q :: pieces)).
    change (String sep "" +:+ ?r) with (String sep r).
    rewrite split_piece by done. by rewrite IH.
Qed.

(** *** A well-formed cell *)

Lemma lstrip_blanks (blanks s : string) :
  string_forall isspace blanks = true → lstrip (blanks +:+ s) = lstrip s.
Proof.
  induction blanks as [|c b IH]; [done|]. simpl.
  intros [Hc Hb]%andb_true_iff.
  change (String c b +:+ s) with (String c (b +:+ s)). simpl.
  rewrite Hc. by apply IH.
Qed.

Lemma rstrip_after (a b : string) :
  string_forall (fun c => negb (isspace c)) a = true →
  rstrip (a +:+ b) = a +:+ rstrip b.
Proof.
  induction a as [|c a IH]; [done|].
  intros Hca. simpl in Hca. apply andb_true_iff in Hca as [Hc Ha].
  apply negb_true_iff in Hc.
  change (String c a +:+ b) with (String c (a +:+ b)).
  change (String c a +:+ rstrip b) with (String c (a +:+ rstrip b)).
  rewrite rstrip_cons, (IH Ha), Hc.
  by destruct (a +:+ rstrip b).
Qed.

Lemma rstrip_starts_with_digit (s : string) :
  starts_with_digit s = false → starts_with_digit (rstrip s) = false.
Proof.
  destruct s as [|c s]; [done|]. intros Hc. simpl in Hc.
  rewrite rstrip_cons.
  destruct (truthy (rstrip s)); [done|]. by destruct (isspace c).
Qed.

Lemma take_digits_app (ds s : string) :
  string_forall isdigit ds = true →
  starts_with_digit s = false →
  take_digits (ds +:+ s) = ds.
Proof.
  intros Hds Hs. induction ds as [|c ds IH].
  - destruct s as [|x s]; [done|]. simpl in *. by rewrite Hs.
  - simpl in Hds. apply andb_true_iff in Hds as [Hc Hds].
    change (String c ds +:+ s) with (String c (ds +:+ s)). simpl.
    by rewrite Hc, IH.
Qed.

Lemma item_match (i : CellItem) :
  item_ok i = true →
  match_leading_digits (strip (render_item i)) = Some (item_code i).
Proof.
  unfold item_ok, render_item, is_digits.
  intros [[[Hb [Hne Hd]%andb_true_iff]%andb_true_iff _]%andb_true_iff
            Hl%negb_true_iff]%andb_true_iff.
  unfold strip. rewrite lstrip_blanks by done.
  rewrite lstrip_fixed.
  2:{ destruct (item_code i) as [|c ds]; [done|]. simpl in *.
      apply andb_true_iff in Hd as [Hc _]. by apply digit_not_space. }
  rewrite rstrip_after.
  2:{ apply (string_forall_impl isdigit); [|done].
      intros c Hc. by rewrite digit_not_space. }
  unfold match_leading_digits.
  rewrite take_digits_app by (done || by apply rstrip_starts_with_digit).
  by rewrite Hne.
Qed.

Lemma item_free_of_comma (i : CellItem) :
  item_ok i = true → free_of comma (render_item i) = true.
Proof.
  unfold item_ok, render_item, is_digits, free_of.
  intros [[[Hb [_ Hd]%andb_true_iff]%andb_true_iff Hl]%andb_true_iff
            _]%andb_true_iff.
  rewrite !string_forall_app, Hl, andb_true_r. apply andb_true_iff. split.
  - apply (string_forall_impl isspace); [|done]. intros c Hc.
    apply negb_true_iff, bool_decide_eq_false. by apply space_not_comma.
  - apply (string_forall_impl isdigit); [|done]. intros c Hc.
    apply negb_true_iff, bool_decide_eq_false. by apply digit_not_comma.
Qed.

Lemma split_render_cell (items : list CellItem) :
  items ≠ [] →
  Forall (fun i => item_ok i = true) items →
  split comma (render_cell items) = map render_item items.
Proof.
  intros Hne Hok. unfold render_cell. apply split_join.
  - by destruct items.
  - clear Hne. induction Hok; constructor;
      [by apply item_free_of_comma|done].
Qed.

Lemma elem_of_concat {A : Type} (x : A) (ls : list (list A)) :
  x ∈ concat ls ↔ ∃ l, x ∈ l ∧ l ∈ ls.
Proof.
  rewrite list_elem_of_In, in_concat. split.
  - intros (l & Hl & Hx). exists l. by rewrite !list_elem_of_In.
  - intros (l & Hx & Hl). exists l. by rewrite <- !list_elem_of_In.
Qed.

(** X3. When every cell of the column is a comma-separated list of items,
    each item being optional white space, the digits of a code, and a label
    without comma that does not start with a digit, the loader returns
    exactly the set of the codes written in the cells. *)
Theorem load_orphacodes_from_excel_cells (cells : list (list CellItem)) :
  Forall (Forall (fun i => item_ok i = true)) cells →
  load_orphacodes_from_excel (map render_cell cells)
  = list_to_set (map item_code (concat cells)).
Proof.
  intros Hcells. apply set_eq. intros c.
  unfold load_orphacodes_from_excel.
  rewrite excel_entry_members, elem_of_list_to_set.
  change (map item_code ?l) with (item_code <$> l).
  change (map render_cell ?l) with (render_cell <$> l).
  rewrite list_elem_of_fmap. setoid_rewrite list_elem_of_fmap.
  setoid_rewrite elem_of_concat. split.
  - intros [[]%elem_of_empty|(entry & part & (items & -> & Hitems) & Hp & Hm)].
    assert (Forall (fun i => item_ok i = true) items) as Hok.
    { by apply (proj1 (Forall_forall _ _) Hcells). }
    destruct items as [|i0 items0] eqn:Heq.
    { apply list_elem_of_singleton in Hp. subst part. discriminate. }
    rewrite <- Heq in *. rewrite split_render_cell in Hp by (done || by subst).
    change (map render_item ?l) with (render_item <$> l) in Hp.
    apply list_elem_of_fmap in Hp as (i & -> & Hi).
    rewrite item_match in Hm by (by apply (proj1 (Forall_forall _ _) Hok)).
    exists i. split; [congruence|]. by exists items.
  - intros (i & -> & items & Hi & Hitems). right.
    assert (Forall (fun i => item_ok i = true) items) as Hok.
    { by apply (proj1 (Forall_forall _ _) Hcells). }
    exists (render_cell items), (render_item i). split; [by exists items|].
    split.
    + rewrite split_render_cell by (done || by destruct items; [inversion Hi|]).
      change (map render_item ?l) with (render_item <$> l).
      by apply list_elem_of_fmap_2.
    + apply item_match. by apply (proj1 (Forall_forall _ _) Hok).
Qed.

Lemma load_orphacodes_from_excel_cells_witness :
  load_orphacodes_from_excel
    [" 166024 (del 1p36),558, 96169 syndrome"; ""; "1606"]
  = list_to_set ["166024"; "558"; "96169"; "1606"].
Proof.
  apply (load_orphacodes_from_excel_cells
           [[mkCellItem " " "166024" " (del 1p36)"; mkCellItem "" "558" "";
             mkCellItem " " "96169" " syndrome"];
            [];
            [mkCellItem "" "1606" ""]]).
  repeat constructor.
Defined.

(** ** save_combined_excel *)

(** X4. In update.py the rows written to the spreadsheet carry, code by
    code and in the same order, the values of the lines written to the TSV
    file; and they are the rows update_datasets.py writes to its CSV file. *)
Theorem excel_rows_agree
    (defs : gmap string string) (phenos prevs omims : gmap string (list string))
    (orphacodes : list string) :
  map row_values (save_combined_excel defs phenos prevs omims orphacodes)
  = tsv_rows defs phenos prevs omims orphacodes
  ∧ save_combined_excel defs phenos prevs omims orphacodes
    = save_combined_csv defs phenos prevs omims orphacodes.
Proof.
  unfold save_combined_excel, save_combined_csv, tsv_rows.
  rewrite (fold_left_snoc (excel_row defs phenos prevs omims)).
  rewrite (fold_left_snoc (csv_row defs phenos prevs omims)).
  rewrite (fold_left_snoc (tsv_line defs phenos prevs omims)).
  split; [|reflexivity]. simpl. rewrite map_map. by apply map_ext.
Qed.

(** ** What the dictionaries hold *)

Lemma dd_append_invariant (orphacodes : list string)
    (d : gmap string (list string)) (k x : string) :
  k ∈ orphacodes →
  map_Forall (fun k l => k ∈ orphacodes ∧ l ≠ []) d →
  map_Forall (fun k l => k ∈ orphacodes ∧ l ≠ []) (dd_append d k x).
Proof.
  intros Hk Hd. unfold dd_append. apply map_Forall_insert_2; [|done].
  split; [done|]. intros Heq. by apply app_eq_nil in Heq as [_ ?].
Qed.

Lemma phenotypes_loop_invariant orphacodes target_freq ds m :
  map_Forall (fun k l => k ∈ orphacodes ∧ l ≠ []) m →
  map_Forall (fun k l => k ∈ orphacodes ∧ l ≠ [])
             (phenotypes_loop orphacodes target_freq ds m).
Proof.
  intros Hm.
  apply (fold_left_invariant
           (map_Forall (fun k l => k ∈ orphacodes ∧ l ≠ []))); [done|].
  intros m' d _ Hm'. unfold phenotypes_step.
  destruct (findtext p_OrphaCode d) as [code|]; [|done].
  case_bool_decide as Hin; [|done].
  destruct (find p_HPODisorderAssociationList d) as [assoc_list|]; [|done].
  apply (fold_left_invariant
           (map_Forall (fun k l => k ∈ orphacodes ∧ l ≠ []))); [done|].
  intros m'' a _ Hm''. rewrite phenotypes_assoc_spec.
  destruct (keeps target_freq a); [|done]. by apply dd_append_invariant.
Qed.

Lemma prevalence_loop_invariant orphacodes ds m :
  map_Forall (fun k l => k ∈ orphacodes ∧ l ≠ []) m →
  map_Forall (fun k l => k ∈ orphacodes ∧ l ≠ [])
             (prevalence_loop orphacodes ds m).
Proof.
  intros Hm.
  apply (fold_left_invariant
           (map_Forall (fun k l => k ∈ orphacodes ∧ l ≠ []))); [done|].
  intros m' d _ Hm'. unfold prevalence_step.
  destruct (findtext p_OrphaCode d) as [code|]; [|done].
  case_bool_decide as Hin; [|done].
  destruct (find p_PrevalenceList d) as [prev_list|]; [|done].
  apply (fold_left_invariant
           (map_Forall (fun k l => k ∈ orphacodes ∧ l ≠ []))); [done|].
  intros m'' a _ Hm''. by apply dd_append_invariant.
Qed.

Lemma omim_loop_invariant orphacodes ds m :
  map_Forall (fun k l => k ∈ orphacodes ∧ l ≠ []) m →
  map_Forall (fun k l => k ∈ orphacodes ∧ l ≠ [])
             (omim_loop orphacodes ds m).
Proof.
  intros Hm.
  apply (fold_left_invariant
           (map_Forall (fun k l => k ∈ orphacodes ∧ l ≠ []))); [done|].
  intros m' d _ Hm'. unfold omim_step.
  destruct (findtext p_OrphaCode d) as [code|]; [|done].
  case_bool_decide as Hin; [|done].
  destruct (find p_ExternalReferenceList d) as [ext_refs|]; [|done].
  apply (fold_left_invariant
           (map_Forall (fun k l => k ∈ orphacodes ∧ l ≠ []))); [done|].
  intros m'' a _ Hm''. rewrite omim_ext_ref_spec.
  destruct (is_omim a); [|done]. by apply dd_append_invariant.
Qed.

Lemma definitions_loop_lookup_other orphacodes (ds : list Element)
    (data : gmap string string) (k : string) :
  k ∉ orphacodes → definitions_loop orphacodes ds data !! k = data !! k.
Proof.
  intros Hk. unfold definitions_loop. revert data.
  induction ds as [|d ds IH]; intros data; simpl; [done|].
  rewrite IH, definitions_step_lookup. by rewrite decide_False by tauto.
Qed.

Lemma list_lookup_none_outside (orphacodes : list string) (m : gmap string (list string))
    (k : string) :
  map_Forall (fun k l => k ∈ orphacodes ∧ l ≠ []) m →
  k ∉ orphacodes → m !! k = None.
Proof.
  intros Hm Hk. destruct (m !! k) as [l|] eqn:Hl; [|done].
  by destruct (Hm k l Hl).
Qed.

(** X5. No extractor keeps anything for a code outside the code set: such a
    code is a key of none of the four dictionaries, whatever the documents
    hold. *)
Theorem excluded_code_has_no_entry
    (root : Element) (orphacodes : list string) (target_freq k : string) :
  k ∉ orphacodes →
  parse_definitions root orphacodes !! k = None
  ∧ parse_phenotypes root orphacodes target_freq !! k = None
  ∧ parse_prevalence root orphacodes !! k = None
  ∧ parse_omim root orphacodes !! k = None.
Proof.
  intros Hk. repeat split.
  - unfold parse_definitions. by rewrite definitions_loop_lookup_other.
  - apply (list_lookup_none_outside orphacodes); [|done].
    by apply phenotypes_loop_invariant.
  - apply (list_lookup_none_outside orphacodes); [|done].
    by apply prevalence_loop_invariant.
  - apply (list_lookup_none_outside orphacodes); [|done].
    by apply omim_loop_invariant.
Qed.

Lemma excluded_code_has_no_entry_witness :
  parse_definitions (document [ex_first_occurrence; ex_other_disorder])
                    ex_codes !! "558" = None
  ∧ parse_phenotypes (document [ex_first_occurrence; ex_other_disorder])
                     ex_codes default_target_freq !! "558" = None
  ∧ parse_prevalence (document [ex_first_occurrence; ex_other_disorder])
                     ex_codes !! "558" = None
  ∧ parse_omim (document [ex_first_occurrence; ex_other_disorder])
               ex_codes !! "558" = None.
Proof.
  apply excluded_code_has_no_entry.
  intros [=]%list_elem_of_singleton.
Defined.

Lemma list_lookup_nonempty (orphacodes : list string) (m : gmap string (list string))
    (k : string) :
  map_Forall (fun k l => k ∈ orphacodes ∧ l ≠ []) m →
  m !! k = nonempty_list (dict_get m k []).
Proof.
  intros Hm. unfold dict_get. destruct (m !! k) as [l|] eqn:Hl; [|done].
  destruct (Hm k l Hl) as [_ Hne]. by destruct l.
Qed.

(** X6. For a retained code, each list-valued dictionary has the code as a
    key exactly when at least one entry was appended for it: the value is
    the non-empty list of the entries of the disorders carrying the code, in
    document order, and there is no key (rather than an empty list) when
    there is no entry. *)
Theorem list_entry_present_iff_nonempty
    (root : Element) (orphacodes : list string) (target_freq k : string) :
  k ∈ orphacodes →
  parse_phenotypes root orphacodes target_freq !! k
  = nonempty_list (flat_map (phenotype_entries target_freq)
                            (occurrences root k))
  ∧ parse_prevalence root orphacodes !! k
    = nonempty_list (flat_map prevalence_entries (occurrences root k))
  ∧ parse_omim root orphacodes !! k
    = nonempty_list (flat_map omim_entries (occurrences root k)).
Proof.
  intros Hk. repeat split.
  - rewrite <- (parse_phenotypes_get root orphacodes) by done.
    apply (list_lookup_nonempty orphacodes).
    by apply phenotypes_loop_invariant.
  - rewrite <- (parse_prevalence_get root orphacodes) by done.
    apply (list_lookup_nonempty orphacodes).
    by apply prevalence_loop_invariant.
  - rewrite <- (parse_omim_get root orphacodes) by done.
    apply (list_lookup_nonempty orphacodes).
    by apply omim_loop_invariant.
Qed.

Lemma list_entry_present_iff_nonempty_witness :
  parse_phenotypes (document [ex_bare_disorder; ex_omim_disorder]) ex_codes
                   default_target_freq !! "166024" = None
  ∧ parse_prevalence (document [ex_bare_disorder; ex_omim_disorder]) ex_codes
      !! "166024" = None
  ∧ parse_omim (document [ex_bare_disorder; ex_omim_disorder]) ex_codes
      !! "166024" = Some ["607596"; "300005"].
Proof.
  destruct (list_entry_present_iff_nonempty
              (document [ex_bare_disorder; ex_omim_disorder]) ex_codes
              default_target_freq "166024") as (H1 & H2 & H3).
  { apply list_elem_of_here. }
  split; [|split].
  - etrans; [exact H1|]. vm_compute. reflexivity.
  - etrans; [exact H2|]. vm_compute. reflexivity.
  - etrans; [exact H3|]. vm_compute. reflexivity.
Defined.

(** X7. A code of the code set is a key of the definition dictionary
    exactly when some [Disorder] element carries it, and then the value is
    what the last such element gives, be it the empty string: a retained
    disorder without a definition still gets an entry. *)
Theorem definition_entry_present_iff_disorder
    (root : Element) (orphacodes : list string) (k : string) :
  (is_Some (parse_definitions root orphacodes !! k)
   ↔ k ∈ orphacodes ∧ occurrences root k ≠ [])
  ∧ (k ∈ orphacodes →
     parse_definitions root orphacodes !! k
     = disorder_definition <$> last (occurrences root k)).
Proof.
  assert (k ∈ orphacodes →
          parse_definitions root orphacodes !! k
          = disorder_definition <$> last (occurrences root k)) as Heq.
  { intros Hk. unfold parse_definitions.
    rewrite definitions_loop_lookup by done. fold (occurrences root k).
    by destruct (last (occurrences root k)). }
  split; [|exact Heq].
  destruct (decide (k ∈ orphacodes)) as [Hk|Hk].
  - rewrite (Heq Hk), fmap_is_Some, last_is_Some. tauto.
  - unfold parse_definitions.
    rewrite definitions_loop_lookup_other, lookup_empty by done.
    split; [by intros []%is_Some_None|tauto].
Qed.

Lemma definition_entry_present_iff_disorder_witness :
  parse_definitions (document [ex_first_occurrence; ex_bare_disorder])
                    ex_codes !! "166024" = Some "".
Proof.
  etrans.
  - apply (proj2 (definition_entry_present_iff_disorder
                    (document [ex_first_occurrence; ex_bare_disorder])
                    ex_codes "166024")).
    apply list_elem_of_here.
  - vm_compute. reflexivity.
Defined.

Lemma first_nonempty_stripped (l : list string) :
  Forall (fun s => strip s = s) l → strip (first_nonempty l) = first_nonempty l.
Proof.
  induction 1 as [|s l Hs _ IH]; [done|]. rewrite first_nonempty_cons.
  by destruct (truthy s).
Qed.

Lemma block_definition_stripped (si : Element) :
  strip (block_definition si) = block_definition si.
Proof.
  unfold block_definition.
  destruct (filter usable_section (findall p_TextSection si)); [done|].
  apply strip_idemp.
Qed.

Lemma disorder_definition_stripped (d : Element) :
  strip (disorder_definition d) = disorder_definition d.
Proof.
  rewrite disorder_definition_spec. apply first_nonempty_stripped.
  induction (english_blocks d) as [|si l IH]; constructor;
    [apply block_definition_stripped|done].
Qed.

(** X8. Every definition stored by the definition extractor has no white
    space at either end: stripping it again changes nothing. *)
Theorem stored_definitions_are_stripped
    (root : Element) (orphacodes : list string) (k v : string) :
  parse_definitions root orphacodes !! k = Some v → strip v = v.
Proof.
  revert k v. change (map_Forall (fun _ v => strip v = v)
                                 (parse_definitions root orphacodes)).
  unfold parse_definitions, definitions_loop.
  apply (fold_left_invariant (map_Forall (fun _ v => strip v = v)));
    [apply map_Forall_empty|].
  intros data d _ Hdata. unfold definitions_step.
  destruct (findtext p_OrphaCode d) as [code|]; [|done].
  case_bool_decide; [|done].
  apply map_Forall_insert_2; [apply disorder_definition_stripped|done].
Qed.

Lemma stored_definitions_are_stripped_witness :
  parse_definitions (document [ex_two_blocks]) ex_codes !! "166024"
  = Some "A rare disease."
  ∧ strip "A rare disease." = "A rare disease.".
Proof.
  assert (parse_definitions (document [ex_two_blocks]) ex_codes !! "166024"
          = Some "A rare disease.") as Hv by (vm_compute; reflexivity).
  split; [exact Hv|].
  exact (stored_definitions_are_stripped _ _ _ _ Hv).
Defined.

(** X9. When definitions and OMIM references are read from the same
    document, as [main] of update_datasets.py does, every code that has OMIM
    references also has an entry in the definition dictionary. *)
Theorem omim_codes_have_definition_entry
    (root : Element) (orphacodes : list string) (k : string) :
  is_Some (parse_omim root orphacodes !! k) →
  is_Some (parse_definitions root orphacodes !! k).
Proof.
  intros [l Hl].
  pose proof (omim_loop_invariant orphacodes (findall p_Disorder root) ∅
                (map_Forall_empty _)) as Hinv.
  destruct (Hinv k l Hl) as [Hk Hne].
  unfold parse_definitions. rewrite definitions_loop_lookup by done.
  fold (occurrences root k).
  destruct (occurrences root k) as [|d ds] eqn:Hocc.
  - exfalso. apply Hne.
    assert (dict_get (parse_omim root orphacodes) k [] = l) as <-.
    { unfold dict_get. by rewrite Hl. }
    rewrite parse_omim_get by done. by rewrite Hocc.
  - destruct (last (d :: ds)) eqn:Hlast; [done|].
    by apply last_None in Hlast.
Qed.

Lemma omim_codes_have_definition_entry_witness :
  is_Some (parse_omim (document [ex_omim_disorder]) ex_codes !! "166024")
  ∧ is_Some (parse_definitions (document [ex_omim_disorder]) ex_codes
               !! "166024").
Proof.
  assert (is_Some (parse_omim (document [ex_omim_disorder]) ex_codes
                     !! "166024")) as Hs.
  { exists ["607596"; "300005"]. vm_compute. reflexivity. }
  split; [exact Hs|].
  exact (omim_codes_have_definition_entry _ _ _ Hs).
Defined.

(** ** The PMID pattern finds only what is there *)

Lemma match_pmid_sound (s ds : string) (n : nat) :
  match_pmid s = Some (ds, n) →
  is_digits ds = true ∧ ∃ post, s = ds +:+ "[PMID]" +:+ post.
Proof.
  revert ds n. induction s as [|c s IH]; intros ds n; [done|].
  cbn [match_pmid]. destruct (isdigit c) eqn:Hc; [|done].
  destruct (match_pmid s) as [[ds' n']|] eqn:Hm.
  - intros [= <- <-]. destruct (IH ds' n' eq_refl) as [Hds (post & ->)].
    split.
    + unfold is_digits in *. simpl. rewrite Hc.
      by apply andb_true_iff in Hds as [_ ->].
    + by exists post.
  - destruct (startswith "[PMID]" s) eqn:Hlit; [|done].
    intros [= <- <-]. apply startswith_split in Hlit as [post ->].
    split; [unfold is_digits; simpl; by rewrite Hc|]. by exists post.
Qed.

Lemma findall_from_sound (s : string) :
  ∀ (skip : nat) (id : string),
    id ∈ findall_from skip s →
    is_digits id = true ∧ ∃ pre post, s = pre +:+ id +:+ "[PMID]" +:+ post.
Proof.
  induction s as [|c s IH]; intros skip id Hid.
  - by apply elem_of_nil in Hid.
  - assert (∀ k, id ∈ findall_from k s →
                 is_digits id = true
                 ∧ ∃ pre post, String c s = pre +:+ id +:+ "[PMID]" +:+ post)
      as Hrest.
    { intros k Hk. destruct (IH k id Hk) as [Hd (pre & post & ->)].
      split; [done|]. by exists (String c pre), post. }
    cbn [findall_from] in Hid. destruct skip as [|k]; [|by apply (Hrest k)].
    destruct (match_pmid (String c s)) as [[ds n]|] eqn:Hm;
      [|by apply (Hrest 0)].
    apply elem_of_cons in Hid as [->|Hid]; [|by apply (Hrest (pred n))].
    destruct (match_pmid_sound _ _ _ Hm) as [Hd (post & Heq)].
    split; [done|]. by exists "", post.
Qed.

(** X10. Every id the PMID pattern reports for a source text is a non-empty
    run of digits that stands in the text immediately before the literal
    "[PMID]". *)
Theorem pmid_findall_sound (source_text id : string) :
  id ∈ pmid_findall source_text →
  is_digits id = true
  ∧ ∃ pre post, source_text = pre +:+ id +:+ "[PMID]" +:+ post.
Proof. apply findall_from_sound. Qed.

Lemma pmid_findall_sound_witness :
  is_digits "87654321" = true
  ∧ ∃ pre post,
      "12345678[PMID], 87654321[PMID]"
      = pre +:+ "87654321" +:+ "[PMID]" +:+ post.
Proof.
  apply (pmid_findall_sound "12345678[PMID], 87654321[PMID]" "87654321").
  vm_compute. apply list_elem_of_further, list_elem_of_here.
Defined.

(** ** The code set as a set *)

Lemma fold_left_ext {A B : Type} (f g : A → B → A) (l : list B) (a : A) :
  (∀ a' b, f a' b = g a' b) → fold_left f l a = fold_left g l a.
Proof.
  intros Hfg. revert a. induction l as [|b l IH]; intros a; [done|].
  simpl. by rewrite Hfg, IH.
Qed.

Lemma bool_decide_member (C C' : list string) (c : string) :
  (∀ x, x ∈ C ↔ x ∈ C') → bool_decide (c ∈ C) = bool_decide (c ∈ C').
Proof. intros H. apply bool_decide_ext, H. Qed.

Lemma extractors_same_members (root : Element) (C C' : list string)
    (target_freq : string) :
  (∀ c, c ∈ C ↔ c ∈ C') →
  parse_definitions root C = parse_definitions root C'
  ∧ parse_phenotypes root C target_freq = parse_phenotypes root C' target_freq
  ∧ parse_prevalence root C = parse_prevalence root C'
  ∧ parse_omim root C = parse_omim root C'.
Proof.
  intros HC. repeat split.
  - apply fold_left_ext. intros data d. unfold definitions_step.
    destruct (findtext p_OrphaCode d) as [code|]; [|done].
    by rewrite (bool_decide_member C C' code HC).
  - apply fold_left_ext. intros m d. unfold phenotypes_step.
    destruct (findtext p_OrphaCode d) as [code|]; [|done].
    by rewrite (bool_decide_member C C' code HC).
  - apply fold_left_ext. intros m d. unfold prevalence_step.
    destruct (findtext p_OrphaCode d) as [code|]; [|done].
    by rewrite (bool_decide_member C C' code HC).
  - apply fold_left_ext. intros m d. unfold omim_step.
    destruct (findtext p_OrphaCode d) as [code|]; [|done].
    by rewrite (bool_decide_member C C' code HC).
Qed.

(** X11. The extractors use the code set only through membership: two code
    sets with the same members, whatever their iteration order, give the
    same four dictionaries. *)
Theorem extractors_depend_on_membership_only
    (root : Element) (C C' : list string) (target_freq : string) :
  (∀ c, c ∈ C ↔ c ∈ C') →
  parse_definitions root C = parse_definitions root C'
  ∧ parse_phenotypes root C target_freq = parse_phenotypes root C' target_freq
  ∧ parse_prevalence root C = parse_prevalence root C'
  ∧ parse_omim root C = parse_omim root C'.
Proof. apply extractors_same_members. Qed.

Lemma extractors_depend_on_membership_only_witness :
  parse_definitions (document [ex_first_occurrence; ex_other_disorder])
                    ["166024"; "558"]
  = parse_definitions (document [ex_first_occurrence; ex_other_disorder])
                      ["558"; "166024"; "558"]
  ∧ parse_omim (document [ex_first_occurrence; ex_other_disorder])
               ["166024"; "558"]
    = parse_omim (document [ex_first_occurrence; ex_other_disorder])
                 ["558"; "166024"; "558"].
Proof.
  destruct (extractors_depend_on_membership_only
              (document [ex_first_occurrence; ex_other_disorder])
              ["166024"; "558"] ["558"; "166024"; "558"] default_target_freq)
    as (H1 & _ & _ & H4); [|by split].
  intros c. rewrite !elem_of_cons, !elem_of_nil. tauto.
Defined.

(** ** Reading the TSV file back *)

Lemma free_of_app (c : ascii) (a b : string) :
  free_of c (a +:+ b) = free_of c a && free_of c b.
Proof. apply string_forall_app. Qed.

Lemma free_of_join (c : ascii) (sep : string) (l : list string) :
  free_of c sep = true →
  Forall (fun v => free_of c v = true) l →
  free_of c (join sep l) = true.
Proof.
  intros Hsep Hl. induction Hl as [|v l Hv Hl IH]; [done|].
  destruct l as [|w l]; [done|].
  change (join sep (v :: w :: l)) with (v +:+ sep +:+ join sep (w :: l)).
  by rewrite !free_of_app, Hv, Hsep, IH.
Qed.

(** Lines that hold no line feed, each written with a line feed after it,
    are found again by cutting the text at the line feeds. *)
Lemma split_written_lines (lines : list string) :
  Forall (fun l => free_of newline_char l = true) lines →
  split newline_char (file_contents (map (fun l => l +:+ newline) lines))
  = lines ++ [""].
Proof.
  induction 1 as [|l lines Hl _ IH]; [done|].
  change (file_contents (map (fun l => l +:+ newline) (l :: lines)))
    with ((l +:+ newline)
          +:+ file_contents (map (fun l => l +:+ newline) lines)).
  rewrite string_app_assoc.
  change (newline +:+ ?r) with (String newline_char r).
  rewrite split_piece by done. by rewrite IH.
Qed.

Lemma tsv_line_not_empty defs phenos prevs omims code :
  tsv_line defs phenos prevs omims code ≠ [].
Proof. done. Qed.

(** X12. The TSV file can be read back when no value holds a tab or a line
    feed (the writer escapes nothing): cutting what [save_combined_tsv]
    wrote at the line feeds, and each line at the tabs, gives the five
    column names and then, for each code in order, the five values of its
    line. *)
Theorem tsv_file_round_trip
    (defs : gmap string string) (phenos prevs omims : gmap string (list string))
    (orphacodes : list string) :
  Forall (fun code =>
            Forall (fun v => free_of tab_char v = true
                             ∧ free_of newline_char v = true)
                   (tsv_line defs phenos prevs omims code))
         orphacodes →
  read_tsv (file_contents (save_combined_tsv defs phenos prevs omims orphacodes))
  = ["OrphaCode"; "Definition"; "Phenotypes"; "Prevalence"; "OMIM"]
    :: map (tsv_line defs phenos prevs omims) orphacodes.
Proof.
  intros Hfree. rewrite save_combined_tsv_written, tsv_rows_map.
  assert (tsv_header ::
            map (fun line => join tab line +:+ newline)
                (map (tsv_line defs phenos prevs omims) orphacodes)
          = map (fun l => l +:+ newline)
                (join tab ["OrphaCode"; "Definition"; "Phenotypes";
                           "Prevalence"; "OMIM"]
                 :: map (fun code =>
                           join tab (tsv_line defs phenos prevs omims code))
                        orphacodes)) as ->.
  { rewrite map_cons, !map_map. reflexivity. }
  unfold read_tsv. rewrite split_written_lines.
  - rewrite removelast_last. rewrite map_cons. f_equal.
    rewrite map_map. apply map_ext_in. intros code Hcode%list_elem_of_In.
    apply split_join; [apply tsv_line_not_empty|].
    pose proof (proj1 (Forall_forall _ _) Hfree code Hcode) as Hline.
    eapply Forall_impl; [exact Hline|]. by intros v [? _].
  - constructor; [by vm_compute|].
    apply Forall_forall. intros l Hl.
    change (map ?f ?x) with (f <$> x) in Hl.
    apply list_elem_of_fmap in Hl as (code & -> & Hcode).
    apply free_of_join; [by vm_compute|].
    pose proof (proj1 (Forall_forall _ _) Hfree code Hcode) as Hvals.
    eapply Forall_impl; [exact Hvals|]. by intros v [_ ?].
Qed.

Lemma tsv_file_round_trip_witness :
  read_tsv
    (file_contents
       (save_combined_tsv {["558" := "Marfan syndrome."]}
                          {["166024" := ["Seizure (HP:0001250)"]]} ∅
                          {["166024" := ["607596"; "300005"]]}
                          ["166024"; "558"]))
  = [["OrphaCode"; "Definition"; "Phenotypes"; "Prevalence"; "OMIM"];
     ["166024"; ""; "Seizure (HP:0001250)"; ""; "607596; 300005"];
     ["558"; "Marfan syndrome."; ""; ""; ""]].
Proof.
  etrans.
  - apply (tsv_file_round_trip {["558" := "Marfan syndrome."]}
                               {["166024" := ["Seizure (HP:0001250)"]]} ∅
                               {["166024" := ["607596"; "300005"]]}
                               ["166024"; "558"]).
    vm_compute. repeat constructor.
  - vm_compute. reflexivity.
Defined.

(** ** The run: from the documents to the rows *)

Lemma parse_definitions_get (root : Element) (orphacodes : list string)
    (code : string) :
  code ∈ orphacodes →
  dict_get (parse_definitions root orphacodes) code ""
  = match last (occurrences root code) with
    | Some d => disorder_definition d
    | None => ""
    end.
Proof.
  intros Hin. unfold dict_get, parse_definitions.
  rewrite definitions_loop_lookup by done. fold (occurrences root code).
  destruct (last (occurrences root code)); [done|]. by rewrite lookup_empty.
Qed.

(** X13. The rows of a run of update_datasets.py, read off the three
    documents: there is one row per code of the code set, in its order; its
    definition is the one extracted from the last [Disorder] element of the
    definition document that carries the code, its phenotype, prevalence and
    OMIM fields are the ["; "]-joins of the entries of the [Disorder]
    elements carrying the code in the respective document, in document
    order.  A code that no [Disorder] element carries in any document gets a
    row with four empty fields. *)
Theorem main_rows_from_documents
    (def_root pheno_root prev_root : Element) (orphacodes : list string) :
  main_rows def_root pheno_root prev_root orphacodes
  = map (expected_row def_root pheno_root prev_root) orphacodes
  ∧ ∀ code,
      code ∈ orphacodes →
      occurrences def_root code = [] →
      occurrences pheno_root code = [] →
      occurrences prev_root code = [] →
      mkRow code "" "" "" ""
      ∈ main_rows def_root pheno_root prev_root orphacodes.
Proof.
  assert (main_rows def_root pheno_root prev_root orphacodes
          = map (expected_row def_root pheno_root prev_root) orphacodes)
    as Heq.
  { unfold main_rows. cbv zeta. rewrite save_combined_csv_map.
    apply map_ext_in. intros code Hin%list_elem_of_In.
    unfold csv_row, expected_row.
    rewrite parse_definitions_get, parse_phenotypes_get,
      parse_prevalence_get, parse_omim_get by done.
    reflexivity. }
  split; [exact Heq|].
  intros code Hin Hd Hp Hv. rewrite Heq.
  change (map ?f ?l) with (f <$> l). apply list_elem_of_fmap.
  exists code. split; [|done].
  unfold expected_row. by rewrite Hd, Hp, Hv.
Qed.

Lemma main_rows_from_documents_witness :
  mkRow "999" "" "" "" ""
  ∈ main_rows (document [ex_first_occurrence]) (document [ex_pheno_disorder])
              (document [ex_prev_disorder]) ["166024"; "999"].
Proof.
  apply (proj2 (main_rows_from_documents
                  (document [ex_first_occurrence])
                  (document [ex_pheno_disorder])
                  (document [ex_prev_disorder]) ["166024"; "999"])).
  - apply list_elem_of_further, list_elem_of_here.
  - vm_compute. reflexivity.
  - vm_compute. reflexivity.
  - vm_compute. reflexivity.
Defined.

(** X14. The order in which the code set is iterated only permutes the rows
    of a run: two iteration orders of the same set give the same rows up to
    their order. *)
Theorem main_rows_up_to_order
    (def_root pheno_root prev_root : Element) (C C' : list string) :
  C ≡ₚ C' →
  main_rows def_root pheno_root prev_root C
  ≡ₚ main_rows def_root pheno_root prev_root C'.
Proof.
  intros HC. unfold main_rows. cbv zeta.
  assert (∀ c, c ∈ C ↔ c ∈ C') as Hmem.
  { intros c. by rewrite HC. }
  destruct (extractors_same_members def_root C C' default_target_freq Hmem)
    as (-> & _ & _ & ->).
  destruct (extractors_same_members pheno_root C C' default_target_freq Hmem)
    as (_ & -> & _ & _).
  destruct (extractors_same_members prev_root C C' default_target_freq Hmem)
    as (_ & _ & -> & _).
  rewrite !save_combined_csv_map.
  change (map ?f ?l) with (f <$> l). by apply fmap_Permutation.
Qed.

Lemma main_rows_up_to_order_witness :
  main_rows (document [ex_first_occurrence; ex_other_disorder])
            (document [ex_pheno_disorder]) (document [ex_prev_disorder])
            ["166024"; "558"]
  ≡ₚ main_rows (document [ex_first_occurrence; ex_other_disorder])
               (document [ex_pheno_disorder]) (document [ex_prev_disorder])
               ["558"; "166024"].
Proof.
  apply main_rows_up_to_order. apply Permutation_swap.
Defined.

(** ** Items of the phenotype and OMIM lists *)

Lemma dict_get_outside (orphacodes : list string)
    (m : gmap string (list string)) (k : string) :
  map_Forall (fun k l => k ∈ orphacodes ∧ l ≠ []) m →
  k ∉ orphacodes → dict_get m k [] = [].
Proof.
  intros Hm Hk. unfold dict_get.
  by rewrite (list_lookup_none_outside orphacodes m k).
Qed.

Lemma truthy_opt_or_empty (x : option string) :
  truthy_opt x = true → or_empty x ≠ "".
Proof. by destruct x as [[|c s]|]. Qed.

(** X15. Unlike the prevalence list, the phenotype and OMIM lists never
    hold an empty item: every phenotype item is a non-empty term followed by
    a non-empty HPO id in parentheses, and every OMIM item is a non-empty
    reference. *)
Theorem phenotype_and_omim_items_are_not_empty
    (root : Element) (orphacodes : list string) (target_freq k x : string) :
  (x ∈ dict_get (parse_phenotypes root orphacodes target_freq) k [] →
   ∃ term id, term ≠ "" ∧ id ≠ "" ∧ x = term +:+ " (" +:+ id +:+ ")")
  ∧ (x ∈ dict_get (parse_omim root orphacodes) k [] → x ≠ "").
Proof.
  destruct (decide (k ∈ orphacodes)) as [Hk|Hk].
  - rewrite parse_phenotypes_get, parse_omim_get by done. split.
    + intros Hx%list_elem_of_In. apply in_flat_map in Hx as (d & _ & Hx).
      unfold phenotype_entries in Hx.
      destruct (find p_HPODisorderAssociationList d); [|done].
      apply in_map_iff in Hx as (a & <- & Ha%list_elem_of_In).
      apply list_elem_of_filter in Ha as [Hkeep _]. unfold keeps in Hkeep.
      apply andb_true_iff in Hkeep as [[_ Ht]%andb_true_iff Hi].
      exists (or_empty (findtext p_HPOTerm a)),
             (or_empty (findtext p_HPOId a)).
      split; [by apply truthy_opt_or_empty|].
      split; [by apply truthy_opt_or_empty|done].
    + intros Hx%list_elem_of_In. apply in_flat_map in Hx as (d & _ & Hx).
      unfold omim_entries in Hx.
      destruct (find p_ExternalReferenceList d); [|done].
      apply in_map_iff in Hx as (r & <- & Hr%list_elem_of_In).
      apply list_elem_of_filter in Hr as [Hkeep _]. unfold is_omim in Hkeep.
      apply andb_true_iff in Hkeep as [_ Hr].
      by apply truthy_opt_or_empty.
  - unfold parse_phenotypes, parse_omim.
    rewrite (dict_get_outside orphacodes)
      by (done || by apply phenotypes_loop_invariant).
    rewrite (dict_get_outside orphacodes)
      by (done || by apply omim_loop_invariant).
    split; by intros []%elem_of_nil.
Qed.

Lemma phenotype_and_omim_items_are_not_empty_witness :
  (∃ term id, term ≠ "" ∧ id ≠ ""
              ∧ "Seizure (HP:0001250)" = term +:+ " (" +:+ id +:+ ")")
  ∧ "607596" ≠ "".
Proof.
  destruct (phenotype_and_omim_items_are_not_empty
              (document [ex_first_occurrence]) ex_codes default_target_freq
              "166024" "Seizure (HP:0001250)") as [H1 _].
  destruct (phenotype_and_omim_items_are_not_empty
              (document [ex_first_occurrence]) ex_codes default_target_freq
              "166024" "607596") as [_ H2].
  split.
  - apply H1. vm_compute. apply list_elem_of_here.
  - apply H2. vm_compute. apply list_elem_of_here.
Defined.
